(** * Biosolids facility filtering: a shallow embedding of the notebooks

    Source: [biosolids_duplicate_debugging/biosolids_filtering.ipynb] and the
    NAICS exploration notebook that follows it in the same file.

    A pandas [DataFrame] is a list of rows, each carrying its index label;
    boolean indexing, [Series.str.contains], [~], [drop_duplicates] and
    [.loc] are written out with the behaviour they have on object columns
    that may hold missing values (NaN).  Python exceptions are the [Raise]
    outcomes of a small error monad.

    Text columns are object columns throughout: a column that holds no
    string at all is read from a file as a float column, on which [.str]
    raises AttributeError, and such a roster or registry is not a value of
    the types below.  Where a statement depends on it, it says that the
    column holds a string.

    A cell that reads a column of an earlier frame can find that frame
    without columns; [frame] keeps the two cases apart, and the functions
    on rows ([DataFrame]) give the rows of the frames. *)

From Stdlib Require Import List String Ascii ZArith Bool Lia Permutation.
Import ListNotations.

Local Open Scope string_scope.
Local Open Scope list_scope.

(** ** Outcomes of Python code that may raise *)

Inductive pyerror : Type :=
| TypeError          (* [~] met a float NaN in an object Series *)
| ValueError         (* boolean indexing with a mask that holds NaN *)
| KeyError           (* [.loc] asked for a label the index does not have,
                        or a column is read that the frame does not have *)
| NonLiteralPattern. (* the pattern holds a regex metacharacter: outside
                        the literal fragment of [re] modelled here *)

Inductive result (A : Type) : Type :=
| Ok (a : A)
| Raise (e : pyerror).

Arguments Ok {A} a.
Arguments Raise {A} e.

Definition bind {A B : Type} (m : result A) (k : A -> result B) : result B :=
  match m with
  | Ok a => k a
  | Raise e => Raise e
  end.

Notation "x <- m ;; k" := (bind m (fun x => k))
  (at level 61, m at next level, right associativity).

Fixpoint mapM {A B : Type} (f : A -> result B) (l : list A) : result (list B) :=
  match l with
  | [] => Ok []
  | a :: l' => b <- f a ;; bs <- mapM f l' ;; Ok (b :: bs)
  end.

(** ** Cells, strings and [str.contains] *)

(** A cell of an object column: a Python [str], or NaN when the value is
    missing (or is not a string, which [.str] methods also turn into NaN). *)
Definition cell : Type := option string.

Definition cell_eqb (a b : cell) : bool :=
  match a, b with
  | Some x, Some y => String.eqb x y
  | None, None => true
  | _, _ => false
  end.

(** [pat in s] for Python strings: some suffix of [s] starts with [pat]. *)
Fixpoint find_substring (pat s : string) : bool :=
  if String.prefix pat s then true
  else match s with
       | EmptyString => false
       | String _ s' => find_substring pat s'
       end.

(** The characters that [re] does not read literally. *)
Definition re_metachars : list ascii :=
  list_ascii_of_string ".^$*+?{}[]\|()".

Definition re_literal (pat : string) : bool :=
  forallb (fun c => negb (existsb (Ascii.eqb c) re_metachars))
          (list_ascii_of_string pat).

(** [re.search(pat, s)] as [Series.str.contains] calls it (regex=True is the
    default): on a pattern without metacharacters it is the substring test. *)
Definition re_search (pat s : string) : result bool :=
  if re_literal pat then Ok (find_substring pat s)
  else Raise NonLiteralPattern.

(** [Series.str.contains(pat)] on one cell: NaN stays NaN. *)
Definition str_contains (pat : string) (c : cell) : result (option bool) :=
  match c with
  | None => if re_literal pat then Ok None else Raise NonLiteralPattern
  | Some s => b <- re_search pat s ;; Ok (Some b)
  end.

(** The pattern of the filtering notebook is the literal 'POTW'. *)
Definition str_contains_POTW (c : cell) : option bool :=
  option_map (find_substring "POTW") c.

(** ** Series operations *)

(** [~ series] on the result of [str.contains]: a bool Series is negated;
    with a NaN in it the Series has dtype object and [~] raises TypeError. *)
Definition invert (s : list (option bool)) : result (list bool) :=
  mapM (fun o => match o with
                 | Some b => Ok (negb b)
                 | None => Raise TypeError
                 end) s.

(** [series == 1] : True == 1, False != 1, NaN != 1. *)
Definition eq_1 (o : option bool) : bool :=
  match o with
  | Some b => b
  | None => false
  end.

(** [series == 0] on a bool Series. *)
Definition eq_0 (b : bool) : bool := negb b.

(** [df[mask]] with a bool mask aligned on the frame's own index. *)
Definition mask_rows {A : Type} (df : list A) (mask : list bool) : list A :=
  map fst (filter snd (combine df mask)).

(** [df[mask]] when the mask may hold NaN. *)
Definition mask_rows_na {A : Type} (df : list A) (mask : list (option bool))
  : result (list A) :=
  m <- mapM (fun o => match o with
                      | Some b => Ok b
                      | None => Raise ValueError
                      end) mask ;;
  Ok (mask_rows df m).

(** ** Facility records *)

(** An entry of a [sic_permit] list.  [utilities.check_all_sic_code] is not
    among the sources; the notebook evaluates [4941 in x],
    ['NO_SIC_MATCH' in x] and [for item in x] on the same values, so a value
    is a list whose entries are SIC integers or marker strings. *)
Inductive sic_item : Type :=
| SIC (code : Z)
| Marker (s : string).

Definition sic_item_eqb (a b : sic_item) : bool :=
  match a, b with
  | SIC x, SIC y => Z.eqb x y
  | Marker x, Marker y => String.eqb x y
  | _, _ => false
  end.

(** [item in x] for a Python list. *)
Definition py_in (item : sic_item) (x : list sic_item) : bool :=
  existsb (sic_item_eqb item) x.

Inductive verdict : Type := sewer_system | other_system.

Definition verdict_eqb (a b : verdict) : bool :=
  match a, b with
  | sewer_system, sewer_system => true
  | other_system, other_system => true
  | _, _ => false
  end.

Record facility : Type := mkFacility {
  Facility_Name : cell;
  NPDES_ID : cell;
  City : cell;
  State : cell;
  Reporting_Obligations : cell;          (* 'Reporting Obligation(s)' *)
  sic_permit : list sic_item;
  check_sewer_permits : verdict
}.

(** A row with its index label; filtering keeps the labels. *)
Definition DataFrame : Type := list (Z * facility).

(** A frame as a later cell receives it: rows under the columns of the
    roster, or the frame of shape (0, 0).  Selection by a boolean mask keeps
    the columns.  Selection by the result of [Series.apply] loses them when
    the frame has no row: [apply] on an empty Series returns an empty object
    Series, [df[...]] reads that as a list of column labels and returns no
    column at all. *)
Inductive frame : Type :=
| Columns (df : DataFrame)
| NoColumns.

Definition rows (f : frame) : DataFrame :=
  match f with
  | Columns df => df
  | NoColumns => []
  end.

(** Reading a column of a frame: [f['sic_permit']], [f[common_columns]]. *)
Definition getitem (f : frame) : result DataFrame :=
  match f with
  | Columns df => Ok df
  | NoColumns => Raise KeyError
  end.

(** [f[f['sic_permit'].apply(test)]] *)
Definition select_by_apply (test : list sic_item -> bool) (f : frame)
  : result frame :=
  df <- getitem f ;;
  match df with
  | [] => Ok NoColumns
  | _ :: _ =>
      Ok (Columns (mask_rows df (map (fun x => test (sic_permit (snd x))) df)))
  end.

(** ** The filtering pipeline *)

Module Filtering.

Definition sic_remove : list Z :=
  [ 6515; 4941; 8211; 8221; 7033; 7032; 9223; 1389; 3533; 8361; 8661; 7997;
    7999; 8051; 3498; 7011; 3171; 2491; 2493; 9711; 3743; 5541; 4911; 5075;
    7041; 2011; 8063; 5812; 7999; 2899; 3331; 6531; 4011; 6514; 2621; 4581;
    1522 ]%Z.

Definition sic_check : list Z := [ 1629; 9511; 9199; 7299; 2819 ]%Z.

Definition dw_code : Z := 4941%Z.

(** [all_biosolids[all_biosolids['check_sewer_permits'] == 'other_system']],
    pickled and read back as [biosolids_not_sewer]. *)
Definition biosolids_not_sewer (all_biosolids : DataFrame) : DataFrame :=
  mask_rows all_biosolids
    (map (fun x => verdict_eqb (check_sewer_permits (snd x)) other_system)
         all_biosolids).

(** [lambda x: 'NO_SIC_MATCH' not in x] *)
Definition has_match (x : list sic_item) : bool :=
  negb (py_in (Marker "NO_SIC_MATCH") x).

(** [lambda x: any(item in sic_remove for item in x)] *)
Definition any_in_sic_remove (x : list sic_item) : bool :=
  existsb (fun item => match item with
                       | SIC c => existsb (Z.eqb c) sic_remove
                       | Marker _ => false
                       end) x.

Definition keep_has_match (df : DataFrame) : DataFrame :=
  mask_rows df (map (fun x => has_match (sic_permit (snd x))) df).

(** [lambda x: any(item in sic_remove for item in x)] under [~] *)
Definition none_in_sic_remove (x : list sic_item) : bool :=
  negb (any_in_sic_remove x).

(** *** First pass (the original rule) *)

Module Original.

(** [potw_mask = ~biosolids_not_sewer['Reporting Obligation(s)'].str.contains('POTW')] *)
Definition potw_mask (not_sewer : DataFrame) : result (list bool) :=
  invert (map (fun x => str_contains_POTW (Reporting_Obligations (snd x)))
              not_sewer).

Definition biosolids_not_sewer_not_potw (all_biosolids : DataFrame)
  : result DataFrame :=
  let not_sewer := biosolids_not_sewer all_biosolids in
  m <- potw_mask not_sewer ;;
  Ok (mask_rows not_sewer m).

Definition biosolids_not_sewer_not_potw_has_match (all_biosolids : DataFrame)
  : result DataFrame :=
  df <- biosolids_not_sewer_not_potw all_biosolids ;;
  Ok (keep_has_match df).

(** The has-match frame with its columns, or without them when rule 2
    left no row; [biosolids_not_sewer_not_potw_has_match] gives its rows. *)
Definition has_match_frame (all_biosolids : DataFrame) : result frame :=
  df <- biosolids_not_sewer_not_potw all_biosolids ;;
  select_by_apply has_match (Columns df).

Definition biosolids_not_sewer_not_potw_has_match_sic_removal
  (all_biosolids : DataFrame) : result frame :=
  f <- has_match_frame all_biosolids ;;
  select_by_apply any_in_sic_remove f.

Definition biosolids_not_sewer_not_potw_has_match_sic_check
  (all_biosolids : DataFrame) : result frame :=
  f <- has_match_frame all_biosolids ;;
  select_by_apply none_in_sic_remove f.

(** [biosolids_to_remove = biosolids_not_sewer_not_potw_has_match] *)
Definition biosolids_to_remove (all_biosolids : DataFrame) : result DataFrame :=
  biosolids_not_sewer_not_potw_has_match all_biosolids.

End Original.

(** *** Second pass (POTW rows with a drinking-water code go on) *)

Module Revised.

Definition potw_check (r : facility) : option bool :=
  str_contains_POTW (Reporting_Obligations r).

(** [lambda x: dw_code in x] *)
Definition dw_sic_check (r : facility) : bool :=
  py_in (SIC dw_code) (sic_permit r).

(** [~((df['potw_check'] == 1) & (df['dw_sic_check'] == 0))] *)
Definition potw_not_dw_mask (not_sewer : DataFrame) : list bool :=
  map (fun x => negb (eq_1 (potw_check (snd x)) && eq_0 (dw_sic_check (snd x))))
      not_sewer.

Definition biosolids_not_potw_includes_dw (all_biosolids : DataFrame)
  : DataFrame :=
  let not_sewer := biosolids_not_sewer all_biosolids in
  mask_rows not_sewer (potw_not_dw_mask not_sewer).

Definition biosolids_not_sewer_not_potw_has_match (all_biosolids : DataFrame)
  : DataFrame :=
  keep_has_match (biosolids_not_potw_includes_dw all_biosolids).

(** The has-match frame with its columns, or without them when rule 2
    left no row; [biosolids_not_sewer_not_potw_has_match] gives its rows. *)
Definition has_match_frame (all_biosolids : DataFrame) : result frame :=
  select_by_apply has_match (Columns (biosolids_not_potw_includes_dw all_biosolids)).

Definition biosolids_not_sewer_not_potw_has_match_sic_removal
  (all_biosolids : DataFrame) : result frame :=
  f <- has_match_frame all_biosolids ;;
  select_by_apply any_in_sic_remove f.

Definition biosolids_not_sewer_not_potw_has_match_sic_check
  (all_biosolids : DataFrame) : result frame :=
  f <- has_match_frame all_biosolids ;;
  select_by_apply none_in_sic_remove f.

Definition biosolids_to_remove (all_biosolids : DataFrame) : DataFrame :=
  biosolids_not_sewer_not_potw_has_match all_biosolids.

End Revised.

(** The two passes as selectable configurations. *)
Inductive config : Type := original | revised.

Definition biosolids_to_remove (c : config) (all_biosolids : DataFrame)
  : result DataFrame :=
  match c with
  | original => Original.biosolids_to_remove all_biosolids
  | revised => Ok (Revised.biosolids_to_remove all_biosolids)
  end.

(** Rule 2 on one row, as the active pass tests it. *)
Definition retained_by_potw_rule (c : config) (r : facility) : bool :=
  match c with
  | original => eq_1 (str_contains_POTW (Reporting_Obligations r))
  | revised => eq_1 (Revised.potw_check r) && eq_0 (Revised.dw_sic_check r)
  end.

(** The frame a pass saves as [biosolids_to_remove]: its has-match frame;
    [biosolids_to_remove] gives its rows. *)
Definition to_remove_frame (c : config) (all_biosolids : DataFrame)
  : result frame :=
  match c with
  | original => Original.has_match_frame all_biosolids
  | revised => Revised.has_match_frame all_biosolids
  end.

(** The rows displayed for manual checking (no code of [sic_remove]); the
    cell raises when the has-match frame has lost its columns. *)
Definition sic_check_bucket (c : config) (all_biosolids : DataFrame)
  : result DataFrame :=
  f <- match c with
       | original =>
           Original.biosolids_not_sewer_not_potw_has_match_sic_check all_biosolids
       | revised =>
           Revised.biosolids_not_sewer_not_potw_has_match_sic_check all_biosolids
       end ;;
  Ok (rows f).

(** The rows displayed as holding a code of [sic_remove]. *)
Definition sic_removal_bucket (c : config) (all_biosolids : DataFrame)
  : result DataFrame :=
  f <- match c with
       | original =>
           Original.biosolids_not_sewer_not_potw_has_match_sic_removal all_biosolids
       | revised =>
           Revised.biosolids_not_sewer_not_potw_has_match_sic_removal all_biosolids
       end ;;
  Ok (rows f).

(** The list left after rule 2, for either pass. *)
Definition not_potw (c : config) (all_biosolids : DataFrame) : result DataFrame :=
  match c with
  | original => Original.biosolids_not_sewer_not_potw all_biosolids
  | revised => Ok (Revised.biosolids_not_potw_includes_dw all_biosolids)
  end.

(** The manual check written up in the notebook: the five facilities of the
    displayed bucket, each one judged "remove". *)
Inductive decision : Type := keep | remove.

Definition manual_check : list (string * decision) :=
  [ ("TX0129321", remove);   (* Live Oak County Safety Rest Area WWTF *)
    ("TX0083933", remove);   (* Bayou Club WWTP *)
    ("TX0101656", remove);   (* GE Packaged Power Jport *)
    ("TX0138754", remove);   (* Sigmapro WWTP *)
    ("SCL000175", remove) ]. (* US DOE / Savannah River Site *)

End Filtering.

(** ** Reconciliation of two removal lists *)

Module Reconcile.

(** A row cut down to [common_columns]:
    ['Facility Name', 'NPDES ID', 'City', 'State', 'Reporting Obligation(s)']. *)
Definition key : Type := (cell * cell * cell * cell * cell)%type.

Definition common_columns (r : facility) : key :=
  (Facility_Name r, NPDES_ID r, City r, State r, Reporting_Obligations r).

(** Row equality as [drop_duplicates] sees it: cell by cell, NaN equal to NaN. *)
Definition key_eqb (a b : key) : bool :=
  match a, b with
  | (a1, a2, a3, a4, a5), (b1, b2, b3, b4, b5) =>
      cell_eqb a1 b1 && cell_eqb a2 b2 && cell_eqb a3 b3 && cell_eqb a4 b4
      && cell_eqb a5 b5
  end.

(** [df[common_columns]] *)
Definition project (df : DataFrame) : list (Z * key) :=
  map (fun x => (fst x, common_columns (snd x))) df.

Definition count_key (k : key) (rows : list (Z * key)) : nat :=
  List.length (filter (fun y => key_eqb k (snd y)) rows).

(** [drop_duplicates(keep=False)]: every row that has a duplicate goes. *)
Definition drop_duplicates_keep_false (rows : list (Z * key)) : list (Z * key) :=
  filter (fun x => Nat.eqb (count_key (snd x) rows) 1) rows.

(** [pd.concat([remove_original[common_columns],
                remove_update[common_columns]]).drop_duplicates(keep=False).index] *)
Definition compare_removal_list_indices (remove_original remove_update : DataFrame)
  : list Z :=
  map fst (drop_duplicates_keep_false
             (project remove_original ++ project remove_update)).

(** [df.loc[[label]]]: every row under the label; none is a KeyError. *)
Definition loc_label (df : DataFrame) (label : Z) : result DataFrame :=
  match filter (fun x => Z.eqb (fst x) label) df with
  | [] => Raise KeyError
  | rows => Ok rows
  end.

(** [df.loc[labels]] *)
Definition loc (df : DataFrame) (labels : list Z) : result DataFrame :=
  rows <- mapM (loc_label df) labels ;;
  Ok (List.concat rows).

(** A row of the comparison: the common columns and ['sic_permit']. *)
Definition compared_row : Type := (Z * (key * list sic_item))%type.

Definition compared (x : Z * facility) : compared_row :=
  (fst x, (common_columns (snd x), sic_permit (snd x))).

(** The comparison cell.  Both frames are first cut down to
    [common_columns], which a frame of shape (0, 0) does not have:
[[
compare_removal_list_indices = pd.concat([remove_original[common_columns],
    remove_update[common_columns]]).drop_duplicates(keep=False).index
compare_removal_list = remove_update.loc[compare_removal_list_indices,
    common_columns + ['sic_permit']]
]] *)
Definition compare_removal_list (remove_original remove_update : frame)
  : result (list compared_row) :=
  original_rows <- getitem remove_original ;;
  update_rows <- getitem remove_update ;;
  found <- loc update_rows
               (compare_removal_list_indices original_rows update_rows) ;;
  Ok (map compared found).

(** In the words of the design text: a member of one run is absent from
    the other when its key tuple occurs in no member of the other. *)
Definition absent_from (other : DataFrame) (x : Z * facility) : bool :=
  negb (existsb (fun y => key_eqb (common_columns (snd x)) (common_columns (snd y)))
                other).

(** [added]: the members of [run_b] absent from [run_a] under the key. *)
Definition added_by_key (run_a run_b : DataFrame) : list compared_row :=
  map compared (filter (absent_from run_a) run_b).

(** [removed], in the same words: the members of [run_a] absent from
    [run_b] under the key.  The notebook builds no such frame (its one
    frame is read out of [remove_update]); this is the reference its
    comparison is checked against. *)
Definition removed_by_key (run_a run_b : DataFrame) : list compared_row :=
  map compared (filter (absent_from run_b) run_a).

(** Two frames that agree on index labels and key tuples, whatever their
    [sic_permit] and [check_sewer_permits] columns hold. *)
Definition same_keys (df df' : DataFrame) : Prop :=
  project df = project df'.

End Reconcile.

(** ** Lookup against the NAICS registry *)

Module Naics.

(** The two columns of [naics_npdes_biosolids] that the lookup reads. *)
Record naics_row : Type := mkNaics {
  PGM_SYS_ID : cell;
  CODE_DESCRIPTION : cell
}.

(** [[
def check_naics_biosolid_codes(npdes_id):
    npdes_mask = naics_npdes_biosolids['PGM_SYS_ID'].str.contains(npdes_id)
    matched_npdes = naics_npdes_biosolids[npdes_mask]
    return matched_npdes['CODE_DESCRIPTION'].tolist()
]] *)
Definition check_naics_biosolid_codes (naics_npdes_biosolids : list naics_row)
  (npdes_id : string) : result (list cell) :=
  npdes_mask <- mapM (fun r => str_contains npdes_id (PGM_SYS_ID r))
                     naics_npdes_biosolids ;;
  matched_npdes <- mask_rows_na naics_npdes_biosolids npdes_mask ;;
  Ok (map CODE_DESCRIPTION matched_npdes).

(** The row identifier holds the queried identifier as a substring. *)
Definition id_contains (npdes_id : string) (r : naics_row) : bool :=
  match PGM_SYS_ID r with
  | Some s => find_substring npdes_id s
  | None => false
  end.

(** Identifiers as the roster writes them: two letters for the
    jurisdiction, then letters and digits. *)
Definition is_letter (c : ascii) : bool :=
  let n := nat_of_ascii c in
  (Nat.leb 65 n && Nat.leb n 90) || (Nat.leb 97 n && Nat.leb n 122).

Definition is_digit (c : ascii) : bool :=
  let n := nat_of_ascii c in Nat.leb 48 n && Nat.leb n 57.

Definition well_formed_id (s : string) : bool :=
  match list_ascii_of_string s with
  | a :: b :: rest =>
      is_letter a && is_letter b
      && forallb (fun c => is_letter c || is_digit c) rest
  | _ => false
  end.

End Naics.

(** ** The other cells of the filtering notebook *)

Module Exploration.
Import Filtering.

(** [lambda x: 'NO_SIC_MATCH' in x] *)
Definition no_match (x : list sic_item) : bool :=
  py_in (Marker "NO_SIC_MATCH") x.

(** [biosolids_not_sewer_not_potw_no_match]: the rows of the first pass
    that the has-match step takes off the list. *)
Definition biosolids_not_sewer_not_potw_no_match (all_biosolids : DataFrame)
  : result DataFrame :=
  df <- Original.biosolids_not_sewer_not_potw all_biosolids ;;
  Ok (mask_rows df (map (fun x => no_match (sic_permit (snd x))) df)).

(** The data exploration cell:
    [potw_mask = biosolids_not_sewer['Reporting Obligation(s)'].str.contains('POTW')]
    [biosolids_not_sewer_is_potw = biosolids_not_sewer[potw_mask]] *)
Definition biosolids_not_sewer_is_potw (all_biosolids : DataFrame)
  : result DataFrame :=
  let not_sewer := biosolids_not_sewer all_biosolids in
  mask_rows_na not_sewer
    (map (fun x => str_contains_POTW (Reporting_Obligations (snd x))) not_sewer).

(** The final comparison cell run on the frames the two passes saved. *)
Definition compare_passes (all_biosolids : DataFrame)
  : result (list Reconcile.compared_row) :=
  remove_original <- to_remove_frame original all_biosolids ;;
  remove_update <- to_remove_frame revised all_biosolids ;;
  Reconcile.compare_removal_list remove_original remove_update.

(** A pass run on a frame saved earlier; the first cell reads the
    ['check_sewer_permits'] column. *)
Definition run_pass (c : config) (f : frame) : result frame :=
  all_biosolids <- getitem f ;;
  to_remove_frame c all_biosolids.

(** What the second pass tests beyond the first: a row that declares
    itself a POTW and holds the drinking-water code. *)
Definition potw_with_dw (r : facility) : bool :=
  eq_1 (Revised.potw_check r) && Revised.dw_sic_check r.

(** The three tests a row has to pass to stay on the list of a pass. *)
Definition fails_rules (c : config) (x : Z * facility) : bool :=
  verdict_eqb (check_sewer_permits (snd x)) other_system
  && negb (retained_by_potw_rule c (snd x))
  && has_match (sic_permit (snd x)).

End Exploration.

(** ** The NAICS check of the facilities without sewer code *)

Module NaicsCheck.
Import Naics.

(** [check_naics_biosolid_codes] on a cell of the ['NPDES ID'] column; a
    missing identifier is a float, which [re.compile] refuses. *)
Definition check_cell (naics_npdes_biosolids : list naics_row) (c : cell)
  : result (list cell) :=
  match c with
  | Some npdes_id => check_naics_biosolid_codes naics_npdes_biosolids npdes_id
  | None => Raise TypeError
  end.

(** [df['naics_description'] = df['NPDES ID'].progress_apply(check_naics_biosolid_codes)] *)
Definition with_naics_description (naics_npdes_biosolids : list naics_row)
  (biosolids_sic_not_sewer : DataFrame)
  : result (list (Z * facility * list cell)) :=
  mapM (fun x => d <- check_cell naics_npdes_biosolids (NPDES_ID (snd x)) ;;
                 Ok (x, d))
       biosolids_sic_not_sewer.

(** [lambda x: len(x) > 0] *)
Definition not_empty (x : list cell) : bool :=
  Nat.ltb 0 (List.length x).

(** [biosolids_sic_not_sewer_naics_not_empty] *)
Definition biosolids_sic_not_sewer_naics_not_empty
  (naics_npdes_biosolids : list naics_row) (biosolids_sic_not_sewer : DataFrame)
  : result (list (Z * facility * list cell)) :=
  df <- with_naics_description naics_npdes_biosolids biosolids_sic_not_sewer ;;
  Ok (mask_rows df (map (fun x => not_empty (snd x)) df)).

End NaicsCheck.

(** ** Sample rosters *)

Module Examples.

Definition potw_10000 : string := "A POTW that serves 10,000 people or more".

Definition class_I : string := "A Class I Sludge Management Facility".

(** A plant with a sewer-related code. *)
Definition city_wwtp : facility :=
  mkFacility (Some "CITY OF TYLER WWTP") (Some "TX0047988") (Some "TYLER")
             (Some "TX") (Some potw_10000) [SIC 4952] sewer_system.

(** A plant for which the code lookup found nothing. *)
Definition no_match_plant : facility :=
  mkFacility (Some "RIVER BEND WWTP") (Some "TX0100001") (Some "AUSTIN")
             (Some "TX") (Some class_I) [Marker "NO_SIC_MATCH"] other_system.

(** A self-declared POTW without the water-supply code. *)
Definition bardstown : facility :=
  mkFacility (Some "BARDSTOWN TOWN CREEK WWTP") (Some "KYL020237")
             (Some "BARDSTOWN") (Some "KY") (Some potw_10000)
             [SIC 9511; SIC 9511] other_system.

Definition austin_county : facility :=
  mkFacility (Some "AUSTIN COUNTY WSC  PLANT 3") (Some "TX0125709")
             (Some "SEALY") (Some "TX") (Some "") [SIC 4941; SIC 4941]
             other_system.

Definition live_oak : facility :=
  mkFacility (Some "LIVE OAK COUNTY SAFETY REST AREA WWTF") (Some "TX0129321")
             (Some "GEORGE WEST") (Some "TX") (Some class_I)
             [SIC 7299; SIC 7299] other_system.

(** A self-declared POTW with the water-supply code. *)
Definition noonday : facility :=
  mkFacility (Some "NOONDAY WATER WELL 2 WWTF") (Some "TX0118362")
             (Some "TYLER") (Some "TX") (Some potw_10000) [SIC 4941]
             other_system.

(** A facility outside the manual check, with a code that is not in
    [sic_remove]. *)
Definition quarry : facility :=
  mkFacility (Some "STONE QUARRY WWTP") (Some "OK0000001") (Some "TULSA")
             (Some "OK") (Some class_I) [SIC 1629] other_system.

(** A row whose obligation cell is empty in the download. *)
Definition no_text : facility :=
  mkFacility (Some "LAKESIDE SCHOOL WWTP") (Some "TX0100002") (Some "WACO")
             (Some "TX") None [SIC 8211] other_system.

Definition roster : DataFrame :=
  [ (0, city_wwtp); (1, no_match_plant); (2, bardstown); (14, austin_county);
    (554, live_oak); (4171, noonday) ]%Z.

Definition roster_review : DataFrame := [ (7, quarry) ]%Z.

Definition roster_nan : DataFrame := [ (14, austin_county); (9, no_text) ]%Z.

(** Two removal lists, the second from a later pass over a later
    enrichment (the codes on file for the first row have changed). *)
Definition teaselville : facility :=
  mkFacility (Some "TEASELVILLE WELL 1 WWTF") (Some "TX0118273")
             (Some "TYLER") (Some "TX") (Some potw_10000) [SIC 4941]
             other_system.

Definition austin_county_later : facility :=
  mkFacility (Some "AUSTIN COUNTY WSC  PLANT 3") (Some "TX0125709")
             (Some "SEALY") (Some "TX") (Some "") [SIC 4941] other_system.

Definition remove_original : DataFrame :=
  [ (14, austin_county); (554, live_oak) ]%Z.

Definition remove_update : DataFrame :=
  [ (14, austin_county_later); (462, teaselville); (554, live_oak);
    (4171, noonday) ]%Z.

(** A later list that no longer holds one of the facilities. *)
Definition remove_shorter : DataFrame := [ (14, austin_county) ]%Z.

(** Lists that each hold a facility the other does not. *)
Definition run_a : DataFrame := [ (14, austin_county); (554, live_oak) ]%Z.

Definition run_b : DataFrame := [ (14, austin_county); (4171, noonday) ]%Z.

(** A slice of the NAICS registry: two rows for one permit, and a permit
    whose identifier extends another one. *)
Definition naics_npdes_biosolids : list Naics.naics_row :=
  [ Naics.mkNaics (Some "UTL025763") (Some "ALL OTHER TRAVELER ACCOMMODATION.");
    Naics.mkNaics (Some "AK0021474") (Some "SEWAGE TREATMENT FACILITIES.");
    Naics.mkNaics (Some "UTL0257630") (Some "SEWAGE TREATMENT FACILITIES.");
    Naics.mkNaics (Some "UTL025763") (Some "ALL OTHER TRAVELER ACCOMMODATION.") ].

End Examples.

(** ** Sample rows for the NAICS check *)

Module NaicsExamples.

Definition lodge : facility :=
  mkFacility (Some "CANYON LODGE WWTP") (Some "UTL025763") (Some "MOAB")
             (Some "UT") (Some Examples.class_I) [SIC 7011; SIC 7011]
             other_system.

Definition biosolids_sic_not_sewer : DataFrame :=
  [ (14, Examples.austin_county); (4135, lodge) ]%Z.

End NaicsExamples.

(** * Properties *)

(** Proof steps for the sample data: entries pairwise distinct, and
    entries of one list found in another. *)
Ltac distinct_entries :=
  repeat constructor; simpl;
  repeat match goal with
         | |- ~ _ => intros H
         | H : _ \/ _ |- _ => destruct H as [H|H]
         | H : False |- _ => destruct H
         | H : _ = _ |- _ => discriminate H
         end.

Ltac listed_entries :=
  intros k Hk; simpl in Hk |- *;
  repeat match goal with
         | H : _ \/ _ |- _ => destruct H as [H|H]
         | H : False |- _ => destruct H
         | H : _ = k |- _ => rewrite <- H; clear H
         end; tauto.

(** ** Boolean indexing, [mapM] and strings *)

Lemma mask_rows_map {A : Type} (f : A -> bool) (df : list A) :
  mask_rows df (map f df) = filter f df.
Proof.
  unfold mask_rows.
  induction df as [|a df IH]; simpl; [reflexivity|].
  destruct (f a); simpl; now rewrite IH.
Qed.

Lemma mapM_Ok_map {A B : Type} (f : A -> result B) (g : A -> B) (l : list A) :
  Forall (fun a => f a = Ok (g a)) l -> mapM f l = Ok (map g l).
Proof.
  induction 1 as [|a l Ha _ IH]; simpl; [reflexivity|].
  now rewrite Ha, IH.
Qed.

Lemma mapM_Ok_inv {A B : Type} (f : A -> result B) (l : list A) (bs : list B) :
  mapM f l = Ok bs -> Forall2 (fun a b => f a = Ok b) l bs.
Proof.
  revert bs.
  induction l as [|a l IH]; simpl; intros bs H.
  - injection H as <-. constructor.
  - destruct (f a) as [b|e] eqn:Ha; simpl in H; [|discriminate].
    destruct (mapM f l) as [bs'|e] eqn:Hl; simpl in H; [|discriminate].
    injection H as <-. constructor; auto.
Qed.

Lemma mapM_Raise {A B : Type} (f : A -> result B) (l : list A) (a : A) (e : pyerror) :
  In a l -> f a = Raise e -> exists e', mapM f l = Raise e'.
Proof.
  induction l as [|x l IH]; simpl; [tauto|].
  intros [->|Hin] Ha.
  - rewrite Ha. simpl. eauto.
  - destruct (f x); simpl; [|eauto].
    destruct (IH Hin Ha) as [e' ->]. simpl. eauto.
Qed.

Lemma prefix_app (p s : string) : String.prefix p (p ++ s)%string = true.
Proof.
  induction p as [|a p IH]; simpl.
  - now destruct s.
  - destruct (ascii_dec a a); [exact IH | congruence].
Qed.

Lemma prefix_inv (p s : string) :
  String.prefix p s = true -> exists post, s = (p ++ post)%string.
Proof.
  revert s.
  induction p as [|a p IH]; intros s H.
  - exists s. reflexivity.
  - destruct s as [|b s]; simpl in H; [discriminate|].
    destruct (ascii_dec a b) as [->|]; [|discriminate].
    destruct (IH _ H) as [post ->]. now exists post.
Qed.

Lemma find_substring_prefix (pat s : string) :
  String.prefix pat s = true -> find_substring pat s = true.
Proof.
  intros H. destruct s; cbn [find_substring]; now rewrite H.
Qed.

Lemma find_substring_app (pat pre post : string) :
  find_substring pat (pre ++ pat ++ post)%string = true.
Proof.
  induction pre as [|a pre IH]; cbn [String.append find_substring].
  - apply find_substring_prefix, prefix_app.
  - rewrite IH. now destruct (String.prefix pat _).
Qed.

Lemma find_substring_inv (pat s : string) :
  find_substring pat s = true -> exists pre post, s = (pre ++ pat ++ post)%string.
Proof.
  induction s as [|a s IH]; cbn [find_substring].
  - destruct (String.prefix pat "") eqn:E; [|discriminate].
    intros _. apply prefix_inv in E. destruct E as [post E].
    exists "", post. exact E.
  - destruct (String.prefix pat (String a s)) eqn:E.
    + intros _. apply prefix_inv in E. destruct E as [post E].
      exists "", post. exact E.
    + intros H. destruct (IH H) as (pre & post & ->).
      exists (String a pre), post. reflexivity.
Qed.

(** [pat in s] holds exactly when [s] is some text, [pat], some text. *)
Lemma find_substring_iff (pat s : string) :
  find_substring pat s = true <-> exists pre post, s = (pre ++ pat ++ post)%string.
Proof.
  split.
  - apply find_substring_inv.
  - intros (pre & post & ->). apply find_substring_app.
Qed.

Lemma sic_item_eqb_eq (a b : sic_item) : sic_item_eqb a b = true <-> a = b.
Proof.
  destruct a as [x|x], b as [y|y]; simpl.
  - rewrite Z.eqb_eq. split; congruence.
  - split; discriminate.
  - split; discriminate.
  - rewrite String.eqb_eq. split; congruence.
Qed.

Lemma py_in_In (item : sic_item) (x : list sic_item) :
  py_in item x = true <-> In item x.
Proof.
  unfold py_in. rewrite existsb_exists. split.
  - intros (y & Hy & E). apply sic_item_eqb_eq in E. now subst.
  - intros H. exists item. split; [exact H | now apply sic_item_eqb_eq].
Qed.

Lemma py_in_false (item : sic_item) (x : list sic_item) :
  py_in item x = false <-> ~ In item x.
Proof.
  rewrite <- py_in_In. destruct (py_in item x); split; congruence.
Qed.

(** ** The filtering passes as row filters *)

Import Filtering.

Lemma invert_inv (s : list (option bool)) (m : list bool) :
  invert s = Ok m ->
  Forall (fun o => o <> None) s /\ m = map (fun o => negb (eq_1 o)) s.
Proof.
  unfold invert. intros H. apply mapM_Ok_inv in H.
  induction H as [|o b s m Hob _ [IH1 IH2]]; simpl.
  - split; [constructor | reflexivity].
  - destruct o as [b'|]; [|discriminate].
    injection Hob as <-. split.
    + constructor; [discriminate | exact IH1].
    + now rewrite IH2.
Qed.

Lemma invert_total (s : list (option bool)) :
  Forall (fun o => o <> None) s ->
  invert s = Ok (map (fun o => negb (eq_1 o)) s).
Proof.
  intros H. unfold invert. apply mapM_Ok_map.
  eapply Forall_impl; [|exact H].
  intros [b|] Hb; [reflexivity | congruence].
Qed.

Lemma invert_nan (s : list (option bool)) :
  In None s -> exists e, invert s = Raise e.
Proof.
  intros H. unfold invert. eapply mapM_Raise; [exact H | reflexivity].
Qed.

Lemma biosolids_not_sewer_filter (all_biosolids : DataFrame) :
  biosolids_not_sewer all_biosolids =
  filter (fun x => verdict_eqb (check_sewer_permits (snd x)) other_system)
         all_biosolids.
Proof. apply mask_rows_map. Qed.

Lemma verdict_eqb_other (v : verdict) :
  verdict_eqb v other_system = true <-> v = other_system.
Proof. destruct v; simpl; split; congruence. Qed.

(** Step 2 of the first pass, when it does not raise. *)
Lemma original_not_potw_inv (all_biosolids df : DataFrame) :
  Original.biosolids_not_sewer_not_potw all_biosolids = Ok df ->
  df = filter (fun x => negb (retained_by_potw_rule original (snd x)))
              (biosolids_not_sewer all_biosolids).
Proof.
  unfold Original.biosolids_not_sewer_not_potw, Original.potw_mask.
  destruct (invert _) as [m|e] eqn:E; simpl; [|discriminate].
  intros [= <-]. apply invert_inv in E. destruct E as [_ ->].
  rewrite map_map. apply mask_rows_map.
Qed.

(** The first pass runs through exactly when no row that reaches rule 2 has
    a missing obligation text. *)
Lemma original_not_potw_total (all_biosolids : DataFrame) :
  Forall (fun x => Reporting_Obligations (snd x) <> None)
         (biosolids_not_sewer all_biosolids) ->
  exists df, Original.biosolids_not_sewer_not_potw all_biosolids = Ok df.
Proof.
  intros H. unfold Original.biosolids_not_sewer_not_potw, Original.potw_mask.
  rewrite invert_total.
  - simpl. eauto.
  - apply Forall_map. eapply Forall_impl; [|exact H].
    intros x Hx. unfold str_contains_POTW. simpl in *.
    destruct (Reporting_Obligations (snd x)); simpl; congruence.
Qed.

Lemma original_not_potw_raises (all_biosolids : DataFrame) (x : Z * facility) :
  In x (biosolids_not_sewer all_biosolids) ->
  Reporting_Obligations (snd x) = None ->
  exists e, Original.biosolids_not_sewer_not_potw all_biosolids = Raise e.
Proof.
  intros Hin Hnan.
  unfold Original.biosolids_not_sewer_not_potw, Original.potw_mask.
  destruct (invert_nan
              (map (fun x => str_contains_POTW (Reporting_Obligations (snd x)))
                   (biosolids_not_sewer all_biosolids))) as [e ->].
  - apply in_map_iff. exists x. split; [|exact Hin]. now rewrite Hnan.
  - simpl. eauto.
Qed.

Lemma revised_not_potw_filter (all_biosolids : DataFrame) :
  Revised.biosolids_not_potw_includes_dw all_biosolids =
  filter (fun x => negb (retained_by_potw_rule revised (snd x)))
         (biosolids_not_sewer all_biosolids).
Proof. apply mask_rows_map. Qed.

Lemma keep_has_match_filter (df : DataFrame) :
  keep_has_match df = filter (fun x => has_match (sic_permit (snd x))) df.
Proof. apply mask_rows_map. Qed.

Lemma not_potw_spec (c : config) (all_biosolids df : DataFrame) :
  not_potw c all_biosolids = Ok df ->
  df = filter (fun x => negb (retained_by_potw_rule c (snd x)))
              (biosolids_not_sewer all_biosolids).
Proof.
  destruct c; simpl.
  - apply original_not_potw_inv.
  - intros [= <-]. apply revised_not_potw_filter.
Qed.

Lemma to_remove_not_potw (c : config) (all_biosolids out : DataFrame) :
  biosolids_to_remove c all_biosolids = Ok out ->
  exists df, not_potw c all_biosolids = Ok df /\ out = keep_has_match df.
Proof.
  destruct c; simpl.
  - unfold Original.biosolids_to_remove,
      Original.biosolids_not_sewer_not_potw_has_match.
    destruct (Original.biosolids_not_sewer_not_potw all_biosolids) as [df|e];
      simpl; [|discriminate].
    intros [= <-]. eauto.
  - intros [= <-]. eauto.
Qed.

(** The list to remove, row by row: the rows of the roster that fail rules
    1 to 3.  Nothing else is tested. *)
Lemma to_remove_spec (c : config) (all_biosolids out : DataFrame) :
  biosolids_to_remove c all_biosolids = Ok out ->
  forall x, In x out <->
            In x all_biosolids
            /\ check_sewer_permits (snd x) = other_system
            /\ retained_by_potw_rule c (snd x) = false
            /\ has_match (sic_permit (snd x)) = true.
Proof.
  intros H x.
  destruct (to_remove_not_potw _ _ _ H) as (df & Hdf & ->).
  apply not_potw_spec in Hdf. subst df.
  rewrite keep_has_match_filter, biosolids_not_sewer_filter.
  rewrite !filter_In, verdict_eqb_other, negb_true_iff.
  tauto.
Qed.

Lemma has_match_true (x : list sic_item) :
  has_match x = true <-> ~ In (Marker "NO_SIC_MATCH") x.
Proof.
  unfold has_match. rewrite negb_true_iff. apply py_in_false.
Qed.

Lemma potw_text (pre post : string) (c : cell) :
  c = Some (pre ++ "POTW" ++ post)%string ->
  str_contains_POTW c = Some true.
Proof.
  intros ->. unfold str_contains_POTW, option_map.
  now rewrite find_substring_app.
Qed.

(** On the literal pattern 'POTW' the regex search is the substring test. *)
Lemma str_contains_POTW_literal (c : cell) :
  str_contains "POTW" c = Ok (str_contains_POTW c).
Proof. destruct c; reflexivity. Qed.

(** ** Rule 2 and its override *)

(** C1. A row that reaches rule 2 with "POTW" in its obligation text: in
    the second pass it stays on the list (rule 2 does not retain it) when
    its code list holds 4941 and leaves the list (rule 2 retains it) when
    it does not; in the first pass rule 2 retains it either way. *)
Theorem potw_override_correct
  (all_biosolids : DataFrame) (i : Z) (r : facility) (pre post : string) :
  In (i, r) (biosolids_not_sewer all_biosolids) ->
  Reporting_Obligations r = Some (pre ++ "POTW" ++ post)%string ->
  (In (SIC 4941) (sic_permit r) ->
     retained_by_potw_rule revised r = false
     /\ In (i, r) (Revised.biosolids_not_potw_includes_dw all_biosolids))
  /\ (~ In (SIC 4941) (sic_permit r) ->
     retained_by_potw_rule revised r = true
     /\ ~ In (i, r) (Revised.biosolids_not_potw_includes_dw all_biosolids)
     /\ ~ In (i, r) (Revised.biosolids_to_remove all_biosolids))
  /\ retained_by_potw_rule original r = true
  /\ (forall df, Original.biosolids_not_sewer_not_potw all_biosolids = Ok df ->
                 ~ In (i, r) df)
  /\ (forall out, Original.biosolids_to_remove all_biosolids = Ok out ->
                  ~ In (i, r) out).
Proof.
  intros Hin Htext.
  pose proof (potw_text _ _ _ Htext) as Hpotw.
  assert (Horig : retained_by_potw_rule original r = true)
    by (simpl; now rewrite Hpotw).
  repeat split.
  - simpl. unfold Revised.potw_check, Revised.dw_sic_check, eq_0, dw_code.
    rewrite Hpotw. apply py_in_In in H. now rewrite H.
  - rewrite revised_not_potw_filter. apply filter_In. split; [exact Hin|].
    simpl. unfold Revised.potw_check, Revised.dw_sic_check, eq_0, dw_code.
    rewrite Hpotw. apply py_in_In in H. now rewrite H.
  - simpl. unfold Revised.potw_check, Revised.dw_sic_check, eq_0, dw_code.
    rewrite Hpotw. apply py_in_false in H. now rewrite H.
  - rewrite revised_not_potw_filter, filter_In. intros [_ Hf].
    simpl in Hf. unfold Revised.potw_check, Revised.dw_sic_check, eq_0, dw_code in Hf.
    rewrite Hpotw in Hf. apply py_in_false in H. now rewrite H in Hf.
  - intros Hout.
    apply (to_remove_spec revised all_biosolids _ eq_refl) in Hout.
    destruct Hout as (_ & _ & Hf & _). simpl in Hf.
    unfold Revised.potw_check, Revised.dw_sic_check, eq_0, dw_code in Hf.
    rewrite Hpotw in Hf. apply py_in_false in H. now rewrite H in Hf.
  - exact Horig.
  - intros df Hdf Hx. apply original_not_potw_inv in Hdf. subst df.
    apply filter_In in Hx. destruct Hx as [_ Hf]. simpl in Hf, Horig.
    now rewrite Horig in Hf.
  - intros out Hout Hx.
    apply (to_remove_spec original all_biosolids out Hout) in Hx.
    destruct Hx as (_ & _ & Hf & _). simpl in Hf, Horig. congruence.
Qed.

Lemma potw_override_correct_witness :
  In (4171%Z, Examples.noonday) (biosolids_not_sewer Examples.roster)
  /\ Reporting_Obligations Examples.noonday
     = Some ("A " ++ "POTW" ++ " that serves 10,000 people or more")%string
  /\ In (SIC 4941) (sic_permit Examples.noonday)
  /\ In (4171%Z, Examples.noonday)
        (Revised.biosolids_not_potw_includes_dw Examples.roster)
  /\ retained_by_potw_rule original Examples.noonday = true.
Proof.
  assert (H1 : In (4171%Z, Examples.noonday) (biosolids_not_sewer Examples.roster))
    by (vm_compute; tauto).
  assert (H2 : Reporting_Obligations Examples.noonday
               = Some ("A " ++ "POTW" ++ " that serves 10,000 people or more")%string)
    by reflexivity.
  assert (H3 : In (SIC 4941) (sic_permit Examples.noonday))
    by (simpl; tauto).
  destruct (potw_override_correct Examples.roster 4171 Examples.noonday
              "A " " that serves 10,000 people or more" H1 H2)
    as (Ha & _ & Hb & _).
  repeat split; try assumption.
  exact (proj2 (Ha H3)).
Defined.

(** ** Rule 1 *)

(** C4. A row with verdict sewer_system is not on the list to remove, in
    either pass, whatever its code list holds. *)
Theorem sewer_never_removed
  (c : config) (all_biosolids out : DataFrame) (i : Z) (r : facility) :
  check_sewer_permits r = sewer_system ->
  biosolids_to_remove c all_biosolids = Ok out ->
  ~ In (i, r) out.
Proof.
  intros Hv Hout Hx.
  apply (to_remove_spec c all_biosolids out Hout) in Hx.
  destruct Hx as (_ & Hother & _). simpl in Hother. congruence.
Qed.

Lemma sewer_never_removed_witness :
  check_sewer_permits Examples.city_wwtp = sewer_system
  /\ biosolids_to_remove revised Examples.roster
     = Ok [ (14, Examples.austin_county); (554, Examples.live_oak);
            (4171, Examples.noonday) ]%Z
  /\ ~ In (0%Z, Examples.city_wwtp)
          [ (14, Examples.austin_county); (554, Examples.live_oak);
            (4171, Examples.noonday) ]%Z.
Proof.
  assert (H1 : check_sewer_permits Examples.city_wwtp = sewer_system)
    by reflexivity.
  assert (H2 : biosolids_to_remove revised Examples.roster
               = Ok [ (14, Examples.austin_county); (554, Examples.live_oak);
                      (4171, Examples.noonday) ]%Z)
    by reflexivity.
  repeat split; try assumption.
  exact (sewer_never_removed revised Examples.roster _ 0 Examples.city_wwtp H1 H2).
Defined.

(** ** Rule 3 *)

(** C5. A row whose code list holds the no-match marker (the sentinel list
    in particular) is not on the list to remove, in either pass, whatever
    its other fields hold. *)
Theorem no_match_never_removed
  (c : config) (all_biosolids out : DataFrame) (i : Z) (r : facility) :
  In (Marker "NO_SIC_MATCH") (sic_permit r) ->
  biosolids_to_remove c all_biosolids = Ok out ->
  ~ In (i, r) out.
Proof.
  intros Hm Hout Hx.
  apply (to_remove_spec c all_biosolids out Hout) in Hx.
  destruct Hx as (_ & _ & _ & Hhas). simpl in Hhas.
  apply has_match_true in Hhas. contradiction.
Qed.

Lemma no_match_never_removed_witness :
  In (Marker "NO_SIC_MATCH") (sic_permit Examples.no_match_plant)
  /\ biosolids_to_remove original Examples.roster
     = Ok [ (14, Examples.austin_county); (554, Examples.live_oak) ]%Z
  /\ ~ In (1%Z, Examples.no_match_plant)
          [ (14, Examples.austin_county); (554, Examples.live_oak) ]%Z.
Proof.
  assert (H1 : In (Marker "NO_SIC_MATCH") (sic_permit Examples.no_match_plant))
    by (simpl; tauto).
  assert (H2 : biosolids_to_remove original Examples.roster
               = Ok [ (14, Examples.austin_county); (554, Examples.live_oak) ]%Z)
    by reflexivity.
  repeat split; try assumption.
  exact (no_match_never_removed original Examples.roster _ 1
           Examples.no_match_plant H1 H2).
Defined.

(** ** Rules 4 and 5 *)

(** Selection by an [apply] mask on a frame that has its columns: the rows
    are the rows that pass the test, and the columns are lost exactly when
    there was no row to test. *)
Lemma select_by_apply_columns (test : list sic_item -> bool) (df : DataFrame) :
  exists g, select_by_apply test (Columns df) = Ok g
            /\ rows g = filter (fun x => test (sic_permit (snd x))) df
            /\ (g = NoColumns <-> df = []).
Proof.
  destruct df as [|x df].
  - exists NoColumns. repeat split; reflexivity.
  - eexists. split; [reflexivity|]. split.
    + exact (mask_rows_map (fun y => test (sic_permit (snd y))) (x :: df)).
    + split; discriminate.
Qed.

Lemma select_by_apply_no_columns (test : list sic_item -> bool) :
  select_by_apply test NoColumns = Raise KeyError.
Proof. reflexivity. Qed.

Lemma filter_nil_iff {A : Type} (f : A -> bool) (l : list A) :
  filter f l = [] <-> forall x, In x l -> f x = false.
Proof.
  split.
  - intros H x Hx. destruct (f x) eqn:E; [|reflexivity].
    assert (Hin : In x (filter f l)) by (apply filter_In; tauto).
    rewrite H in Hin. destruct Hin.
  - induction l as [|y l IH]; simpl; intros H; [reflexivity|].
    rewrite (H y) by now left. apply IH. intros x Hx. apply H. now right.
Qed.

(** The frame a pass saves: its rows are the list of the pass, and it has
    lost its columns exactly when rule 2 left no row. *)
Lemma to_remove_frame_rows (c : config) (all_biosolids out : DataFrame) :
  biosolids_to_remove c all_biosolids = Ok out ->
  exists f,
    to_remove_frame c all_biosolids = Ok f
    /\ rows f = out
    /\ (f = NoColumns <->
        forall x, In x (biosolids_not_sewer all_biosolids) ->
                  retained_by_potw_rule c (snd x) = true).
Proof.
  intros H.
  destruct (to_remove_not_potw _ _ _ H) as (df & Hdf & ->).
  pose proof (not_potw_spec c all_biosolids df Hdf) as Edf.
  destruct (select_by_apply_columns has_match df) as (f & Hf & Hrows & Hcols).
  exists f. split; [|split].
  - destruct c; simpl in Hdf |- *.
    + unfold Original.has_match_frame. rewrite Hdf. exact Hf.
    + injection Hdf as <-. exact Hf.
  - rewrite Hrows. symmetry. apply keep_has_match_filter.
  - split.
    + intros Hnc x Hx. apply Hcols in Hnc. rewrite Edf in Hnc.
      pose proof (proj1 (filter_nil_iff _ _) Hnc x Hx) as Hret.
      now apply negb_false_iff in Hret.
    + intros Hall. apply Hcols. rewrite Edf. apply filter_nil_iff.
      intros x Hx. now rewrite (Hall x Hx).
Qed.

Lemma sic_check_bucket_frame (c : config) (all_biosolids : DataFrame) :
  sic_check_bucket c all_biosolids
  = (f <- to_remove_frame c all_biosolids ;;
     g <- select_by_apply none_in_sic_remove f ;;
     Ok (rows g)).
Proof.
  destruct c; unfold sic_check_bucket, to_remove_frame,
    Original.biosolids_not_sewer_not_potw_has_match_sic_check,
    Revised.biosolids_not_sewer_not_potw_has_match_sic_check.
  - now destruct (Original.has_match_frame all_biosolids).
  - now destruct (Revised.has_match_frame all_biosolids).
Qed.

Lemma sic_removal_bucket_frame (c : config) (all_biosolids : DataFrame) :
  sic_removal_bucket c all_biosolids
  = (f <- to_remove_frame c all_biosolids ;;
     g <- select_by_apply any_in_sic_remove f ;;
     Ok (rows g)).
Proof.
  destruct c; unfold sic_removal_bucket, to_remove_frame,
    Original.biosolids_not_sewer_not_potw_has_match_sic_removal,
    Revised.biosolids_not_sewer_not_potw_has_match_sic_removal.
  - now destruct (Original.has_match_frame all_biosolids).
  - now destruct (Revised.has_match_frame all_biosolids).
Qed.

(** Both displayed buckets are cut out of the list to remove, once rule 2
    has left a row; when it has left none, the cells raise. *)
Lemma buckets_of_to_remove (c : config) (all_biosolids out : DataFrame)
  (x : Z * facility) :
  biosolids_to_remove c all_biosolids = Ok out ->
  In x (biosolids_not_sewer all_biosolids) ->
  retained_by_potw_rule c (snd x) = false ->
  sic_removal_bucket c all_biosolids
  = Ok (filter (fun y => any_in_sic_remove (sic_permit (snd y))) out)
  /\ sic_check_bucket c all_biosolids
     = Ok (filter (fun y => none_in_sic_remove (sic_permit (snd y))) out).
Proof.
  intros Hout Hx Hrule.
  destruct (to_remove_frame_rows c all_biosolids out Hout)
    as (f & Hf & Hrows & Hcols).
  destruct f as [df|].
  - simpl in Hrows. subst df.
    rewrite sic_removal_bucket_frame, sic_check_bucket_frame, Hf. simpl bind.
    destruct (select_by_apply_columns any_in_sic_remove out) as (g1 & -> & <- & _).
    destruct (select_by_apply_columns none_in_sic_remove out) as (g2 & -> & <- & _).
    split; reflexivity.
  - exfalso. pose proof (proj1 Hcols eq_refl x Hx) as Hret. congruence.
Qed.

Lemma buckets_raise (c : config) (all_biosolids out : DataFrame) :
  biosolids_to_remove c all_biosolids = Ok out ->
  (forall x, In x (biosolids_not_sewer all_biosolids) ->
             retained_by_potw_rule c (snd x) = true) ->
  sic_removal_bucket c all_biosolids = Raise KeyError
  /\ sic_check_bucket c all_biosolids = Raise KeyError.
Proof.
  intros Hout Hall.
  destruct (to_remove_frame_rows c all_biosolids out Hout)
    as (f & Hf & _ & Hcols).
  apply Hcols in Hall. subst f.
  rewrite sic_removal_bucket_frame, sic_check_bucket_frame, Hf.
  split; reflexivity.
Qed.

(** Either pass returns a list, the first one provided no row that reaches
    rule 2 lacks its obligation text. *)
Lemma to_remove_total (c : config) (all_biosolids : DataFrame) :
  (c = original ->
   Forall (fun x => Reporting_Obligations (snd x) <> None)
          (biosolids_not_sewer all_biosolids)) ->
  exists out, biosolids_to_remove c all_biosolids = Ok out.
Proof.
  destruct c; simpl; intros H.
  - destruct (original_not_potw_total all_biosolids (H eq_refl)) as [df Hdf].
    unfold Original.biosolids_to_remove,
      Original.biosolids_not_sewer_not_potw_has_match.
    rewrite Hdf. simpl. eauto.
  - eauto.
Qed.

(** C10. The pass returns a list, and the list is exactly the rows that
    fail rules 1 to 3 (verdict other_system, not retained by the POTW rule
    of the pass, no no-match marker), whatever their codes; for a row on
    the list the two displayed buckets are returned, hold the row in one of
    them and hold nothing that is not on the list: the split decides
    nothing.  (The first pass needs an obligation text on every row that
    reaches rule 2.) *)
Theorem fails_rules_1_to_3_removed
  (c : config) (all_biosolids : DataFrame) (i : Z) (r : facility) :
  (c = original ->
   Forall (fun x => Reporting_Obligations (snd x) <> None)
          (biosolids_not_sewer all_biosolids)) ->
  exists out,
    biosolids_to_remove c all_biosolids = Ok out
    /\ (In (i, r) out <->
          In (i, r) all_biosolids
          /\ check_sewer_permits r = other_system
          /\ retained_by_potw_rule c r = false
          /\ ~ In (Marker "NO_SIC_MATCH") (sic_permit r))
    /\ (In (i, r) out ->
        exists rem chk,
          sic_removal_bucket c all_biosolids = Ok rem
          /\ sic_check_bucket c all_biosolids = Ok chk
          /\ (In (i, r) rem \/ In (i, r) chk)
          /\ incl rem out
          /\ incl chk out).
Proof.
  intros Htext.
  destruct (to_remove_total c all_biosolids Htext) as [out Hout].
  exists out. split; [exact Hout|].
  pose proof (to_remove_spec c all_biosolids out Hout (i, r)) as Hspec.
  simpl in Hspec. split.
  - rewrite Hspec. now rewrite has_match_true.
  - intros Hin. apply Hspec in Hin. destruct Hin as (Hall & Hv & Hrule & Hm).
    assert (Hns : In (i, r) (biosolids_not_sewer all_biosolids)).
    { rewrite biosolids_not_sewer_filter. apply filter_In.
      split; [exact Hall | now apply verdict_eqb_other]. }
    destruct (buckets_of_to_remove c all_biosolids out (i, r) Hout Hns Hrule)
      as [Hrem Hchk].
    eexists. eexists. split; [exact Hrem|]. split; [exact Hchk|].
    assert (Hout' : In (i, r) out) by (apply Hspec; tauto).
    split; [|split].
    + rewrite !filter_In. unfold none_in_sic_remove. simpl.
      destruct (any_in_sic_remove (sic_permit r)); simpl; tauto.
    + intros y Hy. apply filter_In in Hy. tauto.
    + intros y Hy. apply filter_In in Hy. tauto.
Qed.

Lemma fails_rules_1_to_3_removed_witness :
  (original = original ->
   Forall (fun x => Reporting_Obligations (snd x) <> None)
          (biosolids_not_sewer Examples.roster))
  /\ exists out,
       biosolids_to_remove original Examples.roster = Ok out
       /\ (In (554%Z, Examples.live_oak) out <->
             In (554%Z, Examples.live_oak) Examples.roster
             /\ check_sewer_permits Examples.live_oak = other_system
             /\ retained_by_potw_rule original Examples.live_oak = false
             /\ ~ In (Marker "NO_SIC_MATCH") (sic_permit Examples.live_oak))
       /\ (In (554%Z, Examples.live_oak) out ->
           exists rem chk,
             sic_removal_bucket original Examples.roster = Ok rem
             /\ sic_check_bucket original Examples.roster = Ok chk
             /\ (In (554%Z, Examples.live_oak) rem
                 \/ In (554%Z, Examples.live_oak) chk)
             /\ incl rem out
             /\ incl chk out).
Proof.
  assert (H : original = original ->
              Forall (fun x => Reporting_Obligations (snd x) <> None)
                     (biosolids_not_sewer Examples.roster))
    by (intros _; repeat constructor; discriminate).
  split; [exact H|].
  exact (fails_rules_1_to_3_removed original Examples.roster 554
           Examples.live_oak H).
Defined.

(** C2, as the notebook has it.  A row that reaches rule 5 (verdict
    other_system, not retained by the POTW rule, no no-match marker, no
    code of [sic_remove]) is in the displayed check bucket and is on the
    list to remove; no keep/remove mapping is consulted. *)
Theorem review_bucket_removed
  (c : config) (all_biosolids : DataFrame) (i : Z) (r : facility) :
  (c = original ->
   Forall (fun x => Reporting_Obligations (snd x) <> None)
          (biosolids_not_sewer all_biosolids)) ->
  In (i, r) all_biosolids ->
  check_sewer_permits r = other_system ->
  retained_by_potw_rule c r = false ->
  ~ In (Marker "NO_SIC_MATCH") (sic_permit r) ->
  any_in_sic_remove (sic_permit r) = false ->
  exists out chk,
    biosolids_to_remove c all_biosolids = Ok out
    /\ sic_check_bucket c all_biosolids = Ok chk
    /\ In (i, r) chk
    /\ In (i, r) out.
Proof.
  intros Htext Hin Hv Hp Hm Hrem.
  destruct (to_remove_total c all_biosolids Htext) as [out Hout].
  assert (Hx : In (i, r) out).
  { apply (to_remove_spec c all_biosolids out Hout). simpl.
    rewrite has_match_true. tauto. }
  assert (Hns : In (i, r) (biosolids_not_sewer all_biosolids)).
  { rewrite biosolids_not_sewer_filter. apply filter_In.
    split; [exact Hin | now apply verdict_eqb_other]. }
  destruct (buckets_of_to_remove c all_biosolids out (i, r) Hout Hns Hp)
    as [_ Hchk].
  eexists. eexists. split; [exact Hout|]. split; [exact Hchk|].
  split; [|exact Hx].
  apply filter_In. split; [exact Hx|]. unfold none_in_sic_remove. simpl.
  now rewrite Hrem.
Qed.

Lemma review_bucket_removed_witness :
  In (7%Z, Examples.quarry) Examples.roster_review
  /\ any_in_sic_remove (sic_permit Examples.quarry) = false
  /\ exists out chk,
       biosolids_to_remove original Examples.roster_review = Ok out
       /\ sic_check_bucket original Examples.roster_review = Ok chk
       /\ In (7%Z, Examples.quarry) chk
       /\ In (7%Z, Examples.quarry) out.
Proof.
  assert (H1 : In (7%Z, Examples.quarry) Examples.roster_review)
    by (simpl; tauto).
  assert (H2 : any_in_sic_remove (sic_permit Examples.quarry) = false)
    by reflexivity.
  split; [exact H1|].
  split; [exact H2|].
  apply (review_bucket_removed original Examples.roster_review 7
           Examples.quarry).
  - intros _. repeat constructor. discriminate.
  - exact H1.
  - reflexivity.
  - reflexivity.
  - simpl. intros [E|[]]. discriminate E.
  - exact H2.
Defined.

(** C2 as stated fails: the quarry reaches rule 5, its identifier is not
    among the manually checked ones, and it is on the list to remove in
    both passes. *)
Lemma review_default_keep_counterexample :
  sic_check_bucket original Examples.roster_review = Ok [ (7%Z, Examples.quarry) ]
  /\ sic_check_bucket revised Examples.roster_review = Ok [ (7%Z, Examples.quarry) ]
  /\ NPDES_ID Examples.quarry = Some "OK0000001"
  /\ ~ In "OK0000001" (map fst manual_check)
  /\ (exists out, biosolids_to_remove original Examples.roster_review = Ok out
                  /\ In (7%Z, Examples.quarry) out)
  /\ (exists out, biosolids_to_remove revised Examples.roster_review = Ok out
                  /\ In (7%Z, Examples.quarry) out).
Proof.
  repeat split.
  - simpl. intros H. repeat (destruct H as [H|H]; [discriminate H|]). exact H.
  - exists [ (7%Z, Examples.quarry) ]. split; [reflexivity | simpl; tauto].
  - exists [ (7%Z, Examples.quarry) ]. split; [reflexivity | simpl; tauto].
Qed.

(** ** Missing obligation text *)

(** In the second pass a row without obligation text is treated as a row
    whose text does not hold "POTW". *)
Lemma revised_missing_text (r : facility) :
  Reporting_Obligations r = None ->
  retained_by_potw_rule revised r = false.
Proof.
  intros H. simpl. unfold Revised.potw_check. now rewrite H.
Qed.

(** C9 at a roster with one row whose obligation cell is empty: the first
    pass raises at [~], the second pass keeps the row on the list like a
    row without "POTW". *)
Lemma missing_text_first_pass_raises :
  Reporting_Obligations Examples.no_text = None
  /\ Original.potw_mask (biosolids_not_sewer Examples.roster_nan) = Raise TypeError
  /\ biosolids_to_remove original Examples.roster_nan = Raise TypeError
  /\ biosolids_to_remove revised Examples.roster_nan
     = Ok [ (14, Examples.austin_county); (9, Examples.no_text) ]%Z.
Proof. repeat split. Qed.

(** ** Reconciliation *)

Import Reconcile.

Lemma cell_eqb_eq (a b : cell) : cell_eqb a b = true <-> a = b.
Proof.
  destruct a as [x|], b as [y|]; simpl; try (split; congruence).
  rewrite String.eqb_eq. split; congruence.
Qed.

Lemma key_eqb_eq (a b : key) : key_eqb a b = true <-> a = b.
Proof.
  destruct a as [[[[a1 a2] a3] a4] a5], b as [[[[b1 b2] b3] b4] b5].
  simpl. rewrite !andb_true_iff, !cell_eqb_eq.
  split.
  - intros [[[[-> ->] ->] ->] ->]. reflexivity.
  - intros [= -> -> -> -> ->]. tauto.
Qed.

Lemma key_eqb_refl (a : key) : key_eqb a a = true.
Proof. now apply key_eqb_eq. Qed.

Lemma count_key_app (k : key) (l1 l2 : list (Z * key)) :
  count_key k (l1 ++ l2) = count_key k l1 + count_key k l2.
Proof.
  unfold count_key. now rewrite filter_app, length_app.
Qed.

Lemma count_key_In (k : key) (i : Z) (rows : list (Z * key)) :
  In (i, k) rows -> 1 <= count_key k rows.
Proof.
  unfold count_key.
  induction rows as [|y rows IH]; simpl; [tauto|].
  intros [->|Hin].
  - simpl. rewrite key_eqb_refl. simpl. lia.
  - specialize (IH Hin). destruct (key_eqb k (snd y)); simpl; lia.
Qed.

Lemma count_key_zero (k : key) (rows : list (Z * key)) :
  count_key k rows = 0 <-> ~ In k (map snd rows).
Proof.
  unfold count_key.
  induction rows as [|y rows IH]; simpl; [tauto|].
  destruct (key_eqb k (snd y)) eqn:E; simpl.
  - apply key_eqb_eq in E. split; [discriminate | intros H; exfalso; auto].
  - rewrite IH. split; [|tauto].
    intros H [E'|H']; [|tauto].
    rewrite E', key_eqb_refl in E. discriminate.
Qed.

Lemma count_key_NoDup (k : key) (rows : list (Z * key)) :
  NoDup (map snd rows) -> In k (map snd rows) -> count_key k rows = 1.
Proof.
  induction rows as [|y rows IH]; simpl; [tauto|].
  intros Hnd Hin. inversion Hnd as [|? ? Hnotin Hnd']; subst.
  unfold count_key in *. simpl.
  destruct (key_eqb k (snd y)) eqn:E; simpl.
  - apply key_eqb_eq in E. subst k.
    apply count_key_zero in Hnotin. unfold count_key in Hnotin.
    now rewrite Hnotin.
  - destruct Hin as [E'|Hin].
    + rewrite E', key_eqb_refl in E. discriminate.
    + now apply IH.
Qed.

Lemma project_keys (df : DataFrame) :
  map snd (project df) = map (fun x => common_columns (snd x)) df.
Proof. unfold project. now rewrite map_map. Qed.

Lemma project_labels (df : DataFrame) :
  map fst (project df) = map fst df.
Proof. unfold project. now rewrite map_map. Qed.

Lemma absent_from_spec (other : DataFrame) (x : Z * facility) :
  absent_from other x = true <->
  ~ In (common_columns (snd x)) (map (fun y => common_columns (snd y)) other).
Proof.
  unfold absent_from. rewrite negb_true_iff, in_map_iff.
  split.
  - intros H (y & E & Hy).
    assert (Hex : existsb (fun y => key_eqb (common_columns (snd x))
                                            (common_columns (snd y))) other = true).
    { apply existsb_exists. exists y. split; [exact Hy|].
      apply key_eqb_eq. now symmetry. }
    congruence.
  - intros H.
    destruct (existsb _ other) eqn:E; [|reflexivity].
    apply existsb_exists in E. destruct E as (y & Hy & E).
    apply key_eqb_eq in E. exfalso. apply H. exists y. split; [now symmetry | exact Hy].
Qed.

Lemma absent_from_false (other : DataFrame) (x : Z * facility) :
  absent_from other x = false ->
  In (common_columns (snd x)) (map (fun y => common_columns (snd y)) other).
Proof.
  unfold absent_from. rewrite negb_false_iff, existsb_exists.
  intros (y & Hy & E). apply key_eqb_eq in E. rewrite E.
  now apply in_map with (f := fun y => common_columns (snd y)).
Qed.

(** The labels picked by the comparison do not depend on the order of the
    two lists, up to the order of the labels. *)
Lemma compare_indices_swap (a b : DataFrame) :
  Permutation (compare_removal_list_indices a b)
              (compare_removal_list_indices b a).
Proof.
  unfold compare_removal_list_indices, drop_duplicates_keep_false.
  apply Permutation_map.
  rewrite (filter_ext
             (fun x => Nat.eqb (count_key (snd x) (project a ++ project b)) 1)
             (fun x => Nat.eqb (count_key (snd x) (project b ++ project a)) 1)).
  - rewrite !filter_app. apply Permutation_app_comm.
  - intros x. rewrite !count_key_app. now rewrite Nat.add_comm.
Qed.

(** The labels depend on the two lists through labels and key tuples only. *)
Lemma compare_indices_same_keys (a a' b b' : DataFrame) :
  same_keys a a' -> same_keys b b' ->
  compare_removal_list_indices a' b' = compare_removal_list_indices a b.
Proof.
  unfold same_keys, compare_removal_list_indices. now intros -> ->.
Qed.

Lemma filter_label_none (df : DataFrame) (label : Z) :
  ~ In label (map fst df) ->
  filter (fun y => Z.eqb (fst y) label) df = [].
Proof.
  induction df as [|y df IH]; simpl; [reflexivity|].
  intros H. destruct (Z.eqb_spec (fst y) label) as [E|_].
  - exfalso. auto.
  - apply IH. tauto.
Qed.

Lemma loc_label_unique (df : DataFrame) (x : Z * facility) :
  NoDup (map fst df) -> In x df -> loc_label df (fst x) = Ok [x].
Proof.
  intros Hnd Hin. unfold loc_label.
  assert (E : filter (fun y => Z.eqb (fst y) (fst x)) df = [x]).
  { induction df as [|y df IH]; simpl in *; [tauto|].
    inversion Hnd as [|? ? Hnotin Hnd']; subst.
    destruct Hin as [->|Hin].
    - rewrite Z.eqb_refl. f_equal. now apply filter_label_none.
    - destruct (Z.eqb_spec (fst y) (fst x)) as [E|_].
      + exfalso. apply Hnotin. rewrite E. now apply in_map.
      + now apply IH. }
  now rewrite E.
Qed.

Lemma loc_unique (df rows : DataFrame) :
  NoDup (map fst df) -> incl rows df -> loc df (map fst rows) = Ok rows.
Proof.
  intros Hnd Hincl. unfold loc.
  rewrite (mapM_Ok_map (loc_label df) (fun l => filter (fun y => Z.eqb (fst y) l) df)).
  - simpl. f_equal.
    induction rows as [|x rows IH]; simpl; [reflexivity|].
    assert (Hx : In x df) by (apply Hincl; now left).
    pose proof (loc_label_unique df x Hnd Hx) as E.
    unfold loc_label in E.
    destruct (filter (fun y => Z.eqb (fst y) (fst x)) df) as [|z zs];
      [discriminate|].
    injection E as -> ->. simpl. f_equal. apply IH.
    intros y Hy. apply Hincl. now right.
  - apply Forall_forall. intros l Hl.
    apply in_map_iff in Hl. destruct Hl as (x & <- & Hx).
    pose proof (loc_label_unique df x Hnd (Hincl x Hx)) as E.
    unfold loc_label in *.
    destruct (filter (fun y => Z.eqb (fst y) (fst x)) df); [discriminate|].
    reflexivity.
Qed.

Lemma filter_none {A : Type} (f : A -> bool) (l : list A) :
  (forall x, In x l -> f x = false) -> filter f l = [].
Proof.
  induction l as [|y l IH]; simpl; intros H; [reflexivity|].
  rewrite (H y) by now left. apply IH. intros x Hx. apply H. now right.
Qed.

Lemma filter_project (f : Z * key -> bool) (df : DataFrame) :
  filter f (project df)
  = project (filter (fun x => f (fst x, common_columns (snd x))) df).
Proof.
  unfold project.
  induction df as [|y df IH]; simpl; [reflexivity|].
  destruct (f (fst y, common_columns (snd y))); simpl; now rewrite IH.
Qed.

Lemma count_key_present (k : key) (rows : list (Z * key)) :
  In k (map snd rows) -> 1 <= count_key k rows.
Proof.
  intros H. apply in_map_iff in H. destruct H as ([i k'] & E & Hin).
  simpl in E. subst k'. now apply count_key_In with (i := i).
Qed.

(** When every member of the first list also occurs in the second, and the
    second list has no repeated key tuple and no repeated label, the
    comparison returns the members of the second list absent from the
    first, in the order of the second list. *)
Lemma compare_removal_list_subset (a b : DataFrame) :
  NoDup (map (fun x => common_columns (snd x)) b) ->
  NoDup (map fst b) ->
  incl (map (fun x => common_columns (snd x)) a)
       (map (fun x => common_columns (snd x)) b) ->
  compare_removal_list (Columns a) (Columns b)
  = Ok (map compared (filter (absent_from a) b)).
Proof.
  intros Hkeys Hlabels Hincl.
  rewrite <- project_keys in Hkeys.
  rewrite <- !project_keys in Hincl.
  assert (Hidx : compare_removal_list_indices a b
                 = map fst (filter (absent_from a) b)).
  { unfold compare_removal_list_indices, drop_duplicates_keep_false.
    rewrite filter_app, map_app.
    rewrite filter_none.
    - simpl. rewrite filter_project, project_labels. f_equal.
      apply filter_ext_in. intros x Hx. simpl.
      rewrite count_key_app.
      assert (Hb : count_key (common_columns (snd x)) (project b) = 1).
      { apply count_key_NoDup; [exact Hkeys|].
        rewrite project_keys. now apply in_map with (f := fun x => common_columns (snd x)). }
      rewrite Hb.
      destruct (absent_from a x) eqn:E.
      + apply absent_from_spec in E. rewrite <- project_keys in E.
        apply count_key_zero in E. now rewrite E.
      + assert (Hin : In (common_columns (snd x)) (map snd (project a))).
        { rewrite project_keys.
          now apply absent_from_false. }
        apply count_key_present in Hin.
        apply Nat.eqb_neq. lia.
    - intros [i k] Hx. simpl. rewrite count_key_app.
      assert (Ha : 1 <= count_key k (project a)) by now apply count_key_In with (i := i).
      assert (Hb : 1 <= count_key k (project b)).
      { apply count_key_present. apply Hincl.
        now apply in_map with (f := snd) in Hx. }
      apply Nat.eqb_neq. lia. }
  unfold compare_removal_list. cbn [getitem bind]. rewrite Hidx.
  rewrite loc_unique; [reflexivity | exact Hlabels |].
  intros x Hx. apply filter_In in Hx. tauto.
Qed.

Lemma mapM_Raise_inv {A B : Type} (f : A -> result B) (l : list A) (e : pyerror) :
  mapM f l = Raise e -> exists a, In a l /\ f a = Raise e.
Proof.
  induction l as [|x l IH]; simpl; [discriminate|].
  destruct (f x) as [b|e'] eqn:Hx; simpl.
  - destruct (mapM f l) as [bs|e'] eqn:Hl; simpl; [discriminate|].
    intros [= ->]. destruct (IH eq_refl) as (a & Ha & Hfa). eauto.
  - intros [= ->]. eauto.
Qed.

Lemma NoDup_map_injective {A B : Type} (f : A -> B) (l : list A) (x y : A) :
  NoDup (map f l) -> In x l -> In y l -> f x = f y -> x = y.
Proof.
  induction l as [|z l IH]; simpl; [tauto|].
  intros H Hx Hy E. inversion H as [|? ? Hnotin Hnd]; subst.
  destruct Hx as [->|Hx], Hy as [->|Hy].
  - reflexivity.
  - exfalso. apply Hnotin. rewrite E. now apply in_map.
  - exfalso. apply Hnotin. rewrite <- E. now apply in_map.
  - now apply IH.
Qed.

Lemma loc_label_Raise (df : DataFrame) (label : Z) (e : pyerror) :
  loc_label df label = Raise e <-> e = KeyError /\ ~ In label (map fst df).
Proof.
  unfold loc_label. split.
  - destruct (filter (fun x => Z.eqb (fst x) label) df) as [|y ys] eqn:E;
      [|discriminate].
    intros [= <-]. split; [reflexivity|].
    intros Hin. apply in_map_iff in Hin. destruct Hin as (x & Hx & Hin).
    assert (Hf : In x (filter (fun x => Z.eqb (fst x) label) df)).
    { apply filter_In. split; [exact Hin | now apply Z.eqb_eq]. }
    rewrite E in Hf. destruct Hf.
  - intros [-> Hnot]. now rewrite filter_label_none.
Qed.

(** A selected label that the second frame does not have makes [.loc]
    raise. *)
Lemma compare_missing_label (a b : DataFrame) (label : Z) :
  In label (compare_removal_list_indices a b) ->
  ~ In label (map fst b) ->
  compare_removal_list (Columns a) (Columns b) = Raise KeyError.
Proof.
  intros Hl Hnot. unfold compare_removal_list, loc. cbn [getitem bind].
  destruct (mapM_Raise (loc_label b) (compare_removal_list_indices a b)
              label KeyError Hl) as [e' He'].
  - now apply loc_label_Raise.
  - rewrite He'. simpl. f_equal.
    apply mapM_Raise_inv in He'. destruct He' as (l' & _ & Hr).
    apply loc_label_Raise in Hr. tauto.
Qed.

(** The labels selected when the first list lies within the second. *)
Lemma compare_indices_subset (a b : DataFrame) :
  NoDup (map (fun x => common_columns (snd x)) b) ->
  incl (map (fun x => common_columns (snd x)) a)
       (map (fun x => common_columns (snd x)) b) ->
  forall label,
    In label (compare_removal_list_indices a b) <->
    exists y, In y b /\ fst y = label /\ absent_from a y = true.
Proof.
  intros Hkeys Hincl label.
  rewrite <- project_keys in Hkeys. rewrite <- !project_keys in Hincl.
  unfold compare_removal_list_indices, drop_duplicates_keep_false.
  rewrite filter_app, map_app, in_app_iff.
  rewrite filter_none.
  2:{ intros [i k] Hx. simpl. rewrite count_key_app.
      assert (Ha : 1 <= count_key k (project a))
        by now apply count_key_In with (i := i).
      assert (Hb : 1 <= count_key k (project b)).
      { apply count_key_present. apply Hincl.
        now apply in_map with (f := snd) in Hx. }
      apply Nat.eqb_neq. lia. }
  simpl. rewrite filter_project, project_labels, in_map_iff.
  split.
  - intros [[]|(y & Ey & Hy)]. apply filter_In in Hy. destruct Hy as [Hy Hc].
    exists y. split; [exact Hy|]. split; [exact Ey|].
    simpl in Hc. rewrite count_key_app in Hc.
    destruct (absent_from a y) eqn:E; [reflexivity|].
    apply absent_from_false in E. rewrite <- project_keys in E.
    apply count_key_present in E.
    assert (Hb : 1 <= count_key (common_columns (snd y)) (project b)).
    { apply count_key_present. rewrite project_keys.
      now apply in_map with (f := fun x => common_columns (snd x)). }
    apply Nat.eqb_eq in Hc. lia.
  - intros (y & Hy & Ey & Habs). right. exists y. split; [exact Ey|].
    apply filter_In. split; [exact Hy|]. simpl. rewrite count_key_app.
    assert (Hb : count_key (common_columns (snd y)) (project b) = 1).
    { apply count_key_NoDup; [exact Hkeys|].
      rewrite project_keys.
      now apply in_map with (f := fun x => common_columns (snd x)). }
    apply absent_from_spec in Habs. rewrite <- project_keys in Habs.
    apply count_key_zero in Habs. rewrite Hb, Habs. reflexivity.
Qed.

Lemma project_incl_keys (a b : DataFrame) :
  incl (project a) (project b) ->
  incl (map (fun x => common_columns (snd x)) a)
       (map (fun x => common_columns (snd x)) b).
Proof.
  intros H k Hk. rewrite <- project_keys in Hk |- *.
  apply in_map_iff in Hk. destruct Hk as (x & <- & Hx).
  now apply in_map, H.
Qed.

(** The other way round, when the second list holds nothing beyond the
    first: no label is selected and the frame is empty. *)
Lemma compare_removal_list_nothing_new (a b : DataFrame) :
  NoDup (map (fun x => common_columns (snd x)) b) ->
  incl (map (fun x => common_columns (snd x)) a)
       (map (fun x => common_columns (snd x)) b) ->
  filter (absent_from a) b = [] ->
  compare_removal_list (Columns b) (Columns a) = Ok [].
Proof.
  intros Hkeys Hk Hnone.
  pose proof (compare_indices_subset a b Hkeys Hk) as Hidx.
  assert (E : compare_removal_list_indices b a = []).
  { destruct (compare_removal_list_indices b a) as [|l ls] eqn:E;
      [reflexivity|].
    assert (Hl : In l (compare_removal_list_indices a b)).
    { apply (Permutation_in l (compare_indices_swap b a)).
      rewrite E. now left. }
    apply Hidx in Hl. destruct Hl as (y & Hy & _ & Habs).
    assert (Hin : In y (filter (absent_from a) b))
      by (apply filter_In; tauto).
    rewrite Hnone in Hin. destruct Hin. }
  unfold compare_removal_list. cbn [getitem bind]. now rewrite E.
Qed.

(** The other way round, when the second list holds more: every row of the
    first list is a row of the second, so the label of a row found only in
    the second is not a label of the first, and [.loc] raises. *)
Lemma compare_removal_list_superset (a b : DataFrame) :
  incl (project a) (project b) ->
  NoDup (map (fun x => common_columns (snd x)) b) ->
  NoDup (map fst b) ->
  filter (absent_from a) b <> [] ->
  compare_removal_list (Columns b) (Columns a) = Raise KeyError.
Proof.
  intros Hincl Hkeys Hlabels Hsome.
  pose proof (compare_indices_subset a b Hkeys (project_incl_keys a b Hincl))
    as Hidx.
  destruct (filter (absent_from a) b) as [|y ys] eqn:E; [congruence|].
  assert (Hy : In y (filter (absent_from a) b)) by (rewrite E; now left).
  apply filter_In in Hy. destruct Hy as [Hy Habs].
  apply (compare_missing_label b a (fst y)).
  - apply (Permutation_in (fst y) (compare_indices_swap a b)).
    apply Hidx. eauto.
  - intros Hin. apply in_map_iff in Hin. destruct Hin as (z & Ez & Hz).
    assert (Hzb : In (fst z, common_columns (snd z)) (project b)).
    { apply Hincl. unfold project.
      now apply in_map with (f := fun x => (fst x, common_columns (snd x))). }
    unfold project in Hzb. apply in_map_iff in Hzb.
    destruct Hzb as (w & Ew & Hw).
    pose proof (f_equal fst Ew) as Ew1. pose proof (f_equal snd Ew) as Ew2.
    cbn [fst snd] in Ew1, Ew2.
    assert (w = y).
    { apply (NoDup_map_injective fst b w y Hlabels Hw Hy). congruence. }
    subst w. apply absent_from_spec in Habs. apply Habs.
    rewrite Ew2. now apply in_map with (f := fun x => common_columns (snd x)).
Qed.

(** C6, as the notebook has it.  The comparison reads the two lists
    through index labels and key tuples only; the codes and verdicts of
    the first list never matter.  It builds a single frame, read out of
    the second list.  When both frames have their key columns, the second
    has no repeated key tuple and no repeated label and every key tuple of
    the first occurs in the second, that frame is exactly the members of
    the second list whose key tuple occurs in no member of the first.  A
    frame that has lost its columns makes the cell raise. *)
Theorem compare_removal_list_by_key (a a' b b' : DataFrame) :
  same_keys a a' ->
  same_keys b b' ->
  NoDup (map (fun x => common_columns (snd x)) b) ->
  NoDup (map fst b) ->
  incl (map (fun x => common_columns (snd x)) a)
       (map (fun x => common_columns (snd x)) b) ->
  compare_removal_list_indices a' b' = compare_removal_list_indices a b
  /\ compare_removal_list (Columns a') (Columns b) = Ok (added_by_key a b)
  /\ (forall x, In x (added_by_key a b) <->
                exists y, In y b /\ x = compared y
                          /\ forall z, In z a ->
                                       common_columns (snd z) <> common_columns (snd y))
  /\ compare_removal_list NoColumns (Columns b) = Raise KeyError
  /\ compare_removal_list (Columns a) NoColumns = Raise KeyError.
Proof.
  intros Ha Hb Hkeys Hlabels Hincl.
  split; [now apply compare_indices_same_keys|].
  split; [|split; [|split; reflexivity]].
  - transitivity (compare_removal_list (Columns a) (Columns b));
      [|apply (compare_removal_list_subset a b Hkeys Hlabels Hincl)].
    unfold compare_removal_list. cbn [getitem bind].
    now rewrite (compare_indices_same_keys a a' b b Ha eq_refl).
  - intros x. unfold added_by_key. rewrite in_map_iff. split.
    + intros (y & <- & Hy). apply filter_In in Hy. destruct Hy as [Hy Habs].
      exists y. repeat split; [exact Hy|].
      intros z Hz E. apply absent_from_spec in Habs. apply Habs.
      rewrite <- E. now apply in_map with (f := fun y => common_columns (snd y)).
    + intros (y & Hy & -> & Hno). exists y. split; [reflexivity|].
      apply filter_In. split; [exact Hy|].
      apply absent_from_spec. intros Hin.
      apply in_map_iff in Hin. destruct Hin as (z & E & Hz).
      exact (Hno z Hz E).
Qed.

Lemma compare_removal_list_by_key_witness :
  same_keys Examples.remove_original
            [ (14, Examples.austin_county_later); (554, Examples.live_oak) ]%Z
  /\ compare_removal_list
       (Columns [ (14, Examples.austin_county_later); (554, Examples.live_oak) ]%Z)
       (Columns Examples.remove_update)
     = Ok (added_by_key Examples.remove_original Examples.remove_update)
  /\ added_by_key Examples.remove_original Examples.remove_update
     = [ compared (462%Z, Examples.teaselville);
         compared (4171%Z, Examples.noonday) ].
Proof.
  assert (H1 : same_keys Examples.remove_original
                 [ (14, Examples.austin_county_later); (554, Examples.live_oak) ]%Z)
    by reflexivity.
  assert (H2 : same_keys Examples.remove_update Examples.remove_update)
    by reflexivity.
  assert (H3 : NoDup (map (fun x => common_columns (snd x)) Examples.remove_update))
    by distinct_entries.
  assert (H4 : NoDup (map fst Examples.remove_update))
    by distinct_entries.
  assert (H5 : incl (map (fun x => common_columns (snd x)) Examples.remove_original)
                    (map (fun x => common_columns (snd x)) Examples.remove_update))
    by listed_entries.
  split; [exact H1|].
  split; [|reflexivity].
  exact (proj1 (proj2 (compare_removal_list_by_key _ _ _ _ H1 H2 H3 H4 H5))).
Defined.

(** C6 as stated fails when the second list has dropped a facility of the
    first: nothing was added, one member was removed, and the cell reports
    neither, because the label of the dropped row is looked up in the
    second list and [.loc] raises. *)
Lemma compare_removal_list_dropped_facility :
  compare_removal_list_indices Examples.remove_original Examples.remove_shorter
  = [ 554%Z ]
  /\ compare_removal_list (Columns Examples.remove_original)
                          (Columns Examples.remove_shorter)
     = Raise KeyError
  /\ added_by_key Examples.remove_original Examples.remove_shorter = []
  /\ removed_by_key Examples.remove_original Examples.remove_shorter
     = [ compared (554%Z, Examples.live_oak) ].
Proof. repeat split. Qed.

(** C7, as the notebook has it.  The labels selected for (a, b) and for
    (b, a) are the same up to order, for any two lists.  The cell returns
    one frame, read out of its second list.  When every key tuple of [a]
    occurs in [b] and [b] has no repeated key tuple or label, the frame
    returned for (a, b) is the removed component of the comparison taken
    the other way round, and the removed component of (a, b) is empty; the
    cell run on (b, a) returns it when [b] holds nothing beyond [a], and
    raises KeyError when [b] holds more and the rows of [a] are rows of
    [b]. *)
Theorem compare_removal_list_symmetry (a b : DataFrame) :
  Permutation (compare_removal_list_indices a b)
              (compare_removal_list_indices b a)
  /\ (NoDup (map (fun x => common_columns (snd x)) b) ->
      NoDup (map fst b) ->
      incl (map (fun x => common_columns (snd x)) a)
           (map (fun x => common_columns (snd x)) b) ->
      compare_removal_list (Columns a) (Columns b) = Ok (removed_by_key b a)
      /\ removed_by_key a b = []
      /\ (removed_by_key b a = [] ->
          compare_removal_list (Columns b) (Columns a)
          = Ok (removed_by_key a b))
      /\ (removed_by_key b a <> [] ->
          incl (project a) (project b) ->
          compare_removal_list (Columns b) (Columns a) = Raise KeyError)).
Proof.
  split; [apply compare_indices_swap|].
  intros Hkeys Hlabels Hk.
  assert (Hnone : removed_by_key a b = []).
  { unfold removed_by_key. rewrite filter_none; [reflexivity|].
    intros x Hx. destruct (absent_from b x) eqn:E; [|reflexivity].
    apply absent_from_spec in E. exfalso. apply E, Hk.
    now apply in_map with (f := fun y => common_columns (snd y)). }
  split; [apply (compare_removal_list_subset a b Hkeys Hlabels Hk)|].
  split; [exact Hnone|].
  unfold removed_by_key in *. split.
  - intros H. rewrite Hnone.
    apply (compare_removal_list_nothing_new a b Hkeys Hk).
    destruct (filter (absent_from a) b); [reflexivity | discriminate H].
  - intros H Hincl.
    apply (compare_removal_list_superset a b Hincl Hkeys Hlabels).
    intros E. apply H. now rewrite E.
Qed.

Lemma compare_removal_list_symmetry_witness :
  incl (map (fun x => common_columns (snd x)) Examples.remove_original)
       (map (fun x => common_columns (snd x)) Examples.remove_update)
  /\ incl (project Examples.remove_original) (project Examples.remove_update)
  /\ compare_removal_list (Columns Examples.remove_original)
                          (Columns Examples.remove_update)
     = Ok (removed_by_key Examples.remove_update Examples.remove_original)
  /\ removed_by_key Examples.remove_update Examples.remove_original
     = [ compared (462%Z, Examples.teaselville);
         compared (4171%Z, Examples.noonday) ]
  /\ compare_removal_list (Columns Examples.remove_update)
                          (Columns Examples.remove_original)
     = Raise KeyError.
Proof.
  assert (H1 : incl (project Examples.remove_original)
                    (project Examples.remove_update))
    by listed_entries.
  assert (H3 : NoDup (map (fun x => common_columns (snd x)) Examples.remove_update))
    by distinct_entries.
  assert (H4 : NoDup (map fst Examples.remove_update))
    by distinct_entries.
  assert (H5 : incl (map (fun x => common_columns (snd x)) Examples.remove_original)
                    (map (fun x => common_columns (snd x)) Examples.remove_update))
    by listed_entries.
  destruct (proj2 (compare_removal_list_symmetry Examples.remove_original
                     Examples.remove_update) H3 H4 H5)
    as (Ha & _ & _ & Hb).
  split; [exact H5|]. split; [exact H1|]. split; [exact Ha|].
  split; [reflexivity|].
  apply Hb; [discriminate | exact H1].
Defined.

(** C7 as stated fails when each list holds a facility the other does not:
    the label of the row found only in the first list is looked up in the
    second, and [.loc] raises. *)
Lemma compare_removal_list_two_sided :
  compare_removal_list_indices Examples.run_a Examples.run_b = [ 554; 4171 ]%Z
  /\ compare_removal_list (Columns Examples.run_a) (Columns Examples.run_b)
     = Raise KeyError
  /\ removed_by_key Examples.run_b Examples.run_a
     = [ compared (4171%Z, Examples.noonday) ]
  /\ compare_removal_list (Columns Examples.run_b) (Columns Examples.run_a)
     = Raise KeyError
  /\ removed_by_key Examples.run_a Examples.run_b
     = [ compared (554%Z, Examples.live_oak) ].
Proof. repeat split. Qed.

(** ** Lookup against the registry *)

Import Naics.

Lemma mask_rows_na_total {A : Type} (df : list A) (f : A -> bool) :
  mask_rows_na df (map (fun x => Some (f x)) df) = Ok (filter f df).
Proof.
  unfold mask_rows_na.
  rewrite (mapM_Ok_map _ (fun o => eq_1 o)).
  - simpl. rewrite map_map. simpl. now rewrite mask_rows_map.
  - apply Forall_forall. intros o Ho.
    apply in_map_iff in Ho. destruct Ho as (x & <- & _). reflexivity.
Qed.

Lemma alnum_not_metachar (c : ascii) :
  is_letter c || is_digit c = true ->
  negb (existsb (Ascii.eqb c) re_metachars) = true.
Proof.
  destruct c as [[] [] [] [] [] [] [] []]; vm_compute; intros H;
    (reflexivity || discriminate H).
Qed.

(** A well-formed identifier is a literal pattern. *)
Lemma well_formed_id_literal (s : string) :
  well_formed_id s = true -> re_literal s = true.
Proof.
  unfold well_formed_id, re_literal.
  destruct (list_ascii_of_string s) as [|a [|b rest]]; try discriminate.
  rewrite !andb_true_iff. intros [[Ha Hb] Hrest].
  cbn [forallb]. rewrite !andb_true_iff. repeat split.
  - apply alnum_not_metachar. now rewrite Ha.
  - apply alnum_not_metachar. now rewrite Hb.
  - apply forallb_forall. intros c Hc.
    apply alnum_not_metachar. now apply (proj1 (forallb_forall _ _) Hrest).
Qed.

(** C8. For an identifier without regex metacharacter (every well-formed
    identifier is one) and a registry whose rows all carry an identifier,
    the lookup returns the code entries of the rows whose identifier holds
    the queried one as a substring, in registry order, repeats included. *)
Theorem check_naics_biosolid_codes_substring
  (naics_npdes_biosolids : list naics_row) (npdes_id : string) :
  re_literal npdes_id = true ->
  Forall (fun r => PGM_SYS_ID r <> None) naics_npdes_biosolids ->
  check_naics_biosolid_codes naics_npdes_biosolids npdes_id
  = Ok (map CODE_DESCRIPTION
            (filter (id_contains npdes_id) naics_npdes_biosolids))
  /\ forall r, In r (filter (id_contains npdes_id) naics_npdes_biosolids) <->
               In r naics_npdes_biosolids
               /\ exists pre post,
                    PGM_SYS_ID r = Some (pre ++ npdes_id ++ post)%string.
Proof.
  intros Hlit Hids. split.
  - unfold check_naics_biosolid_codes.
    rewrite (mapM_Ok_map _ (fun r => Some (id_contains npdes_id r))).
    + simpl. now rewrite mask_rows_na_total.
    + eapply Forall_impl; [|exact Hids].
      intros r Hr. simpl in Hr. unfold str_contains, re_search, id_contains.
      destruct (PGM_SYS_ID r) as [s|]; [|congruence].
      now rewrite Hlit.
  - intros r. rewrite filter_In. unfold id_contains.
    destruct (PGM_SYS_ID r) as [s|].
    + rewrite find_substring_iff. split.
      * intros [Hin (pre & post & ->)]. eauto.
      * intros [Hin (pre & post & [= ->])]. eauto.
    + split; [intros [_ H]; discriminate H|].
      intros [_ (pre & post & H)]. discriminate H.
Qed.

Lemma check_naics_biosolid_codes_substring_witness :
  re_literal "UTL025763" = true
  /\ Forall (fun r => PGM_SYS_ID r <> None) Examples.naics_npdes_biosolids
  /\ check_naics_biosolid_codes Examples.naics_npdes_biosolids "UTL025763"
     = Ok [ Some "ALL OTHER TRAVELER ACCOMMODATION.";
            Some "SEWAGE TREATMENT FACILITIES.";
            Some "ALL OTHER TRAVELER ACCOMMODATION." ].
Proof.
  assert (H1 : re_literal "UTL025763" = true) by reflexivity.
  assert (H2 : Forall (fun r => PGM_SYS_ID r <> None)
                      Examples.naics_npdes_biosolids)
    by (repeat constructor; discriminate).
  split; [exact H1|].
  split; [exact H2|].
  exact (proj1 (check_naics_biosolid_codes_substring _ _ H1 H2)).
Defined.

(** * Further properties of the notebooks *)

Import Exploration.

(** ** Lists and the error monad *)

(** Two selections in a row are one selection by both tests. *)
Lemma filter_twice {A : Type} (keep_first keep_then : A -> bool)
  (rows : list A) :
  filter keep_then (filter keep_first rows)
  = filter (fun row => keep_first row && keep_then row) rows.
Proof.
  induction rows as [|row rows IH]; simpl; [reflexivity|].
  destruct (keep_first row); simpl; [destruct (keep_then row)|];
    now rewrite IH.
Qed.

Lemma filter_split {A : Type} (f : A -> bool) (l : list A) :
  Permutation (filter f l ++ filter (fun x => negb (f x)) l) l.
Proof.
  induction l as [|x l IH]; simpl; [constructor|].
  destruct (f x); simpl.
  - now constructor.
  - apply Permutation_sym, Permutation_cons_app, Permutation_sym, IH.
Qed.

(** A column with distinct values keeps distinct values under selection. *)
Lemma distinct_after_selection {A B : Type} (col : A -> B) (keep : A -> bool)
  (rows : list A) (Hdistinct : NoDup (map col rows)) :
  NoDup (map col (filter keep rows)).
Proof.
  induction rows as [|row rows IH]; simpl in *; [constructor|].
  inversion Hdistinct as [|? ? Hnotin Hrest]; subst.
  destruct (keep row); simpl; [|now apply IH].
  constructor; [|now apply IH].
  intros Hin. apply Hnotin.
  apply in_map_iff in Hin. destruct Hin as (y & E & Hy).
  apply filter_In in Hy. rewrite <- E. now apply in_map.
Qed.

(** ** The two passes as lists *)

(** The list of a pass is the roster filtered once, in roster order. *)
Lemma to_remove_filter (c : config) (all_biosolids out : DataFrame) :
  biosolids_to_remove c all_biosolids = Ok out ->
  out = filter (fails_rules c) all_biosolids.
Proof.
  intros H.
  destruct (to_remove_not_potw _ _ _ H) as (df & Hdf & ->).
  apply not_potw_spec in Hdf. subst df.
  rewrite keep_has_match_filter, biosolids_not_sewer_filter.
  rewrite !filter_twice. apply filter_ext. intros x.
  unfold fails_rules. now rewrite andb_assoc.
Qed.


Lemma original_ok_texts (all_biosolids out : DataFrame) :
  Original.biosolids_to_remove all_biosolids = Ok out ->
  Forall (fun x => Reporting_Obligations (snd x) <> None)
         (biosolids_not_sewer all_biosolids).
Proof.
  unfold Original.biosolids_to_remove,
    Original.biosolids_not_sewer_not_potw_has_match,
    Original.biosolids_not_sewer_not_potw, Original.potw_mask.
  destruct (invert _) as [m|e] eqn:E; simpl; [|discriminate].
  intros _. apply invert_inv in E. destruct E as [E _].
  rewrite Forall_map in E. eapply Forall_impl; [|exact E].
  intros x Hx Hnone. apply Hx. simpl. now rewrite Hnone.
Qed.

(** ** Failure of the first pass *)



(** ** The second pass against the first *)

Lemma dw_code_in_sic_remove (r : facility) :
  Revised.dw_sic_check r = true -> any_in_sic_remove (sic_permit r) = true.
Proof.
  unfold Revised.dw_sic_check. intros H. apply py_in_In in H.
  unfold any_in_sic_remove. apply existsb_exists.
  exists (SIC dw_code). split; [exact H | reflexivity].
Qed.

Lemma fails_rules_original (x : Z * facility) :
  fails_rules original x
  = fails_rules revised x && negb (potw_with_dw (snd x)).
Proof.
  unfold fails_rules, potw_with_dw, retained_by_potw_rule, Revised.potw_check, eq_0.
  destruct (verdict_eqb _ _), (eq_1 _), (Revised.dw_sic_check _), (has_match _);
    reflexivity.
Qed.

Lemma first_list_filter (all_biosolids out : DataFrame) :
  Original.biosolids_to_remove all_biosolids = Ok out ->
  out = filter (fun x => negb (potw_with_dw (snd x)))
               (Revised.biosolids_to_remove all_biosolids).
Proof.
  intros H.
  rewrite (to_remove_filter original all_biosolids out H).
  rewrite (to_remove_filter revised all_biosolids _ eq_refl).
  rewrite filter_twice. apply filter_ext. intros x.
  apply fails_rules_original.
Qed.

(** X2. When the first pass returns, its list is the list of the second
    pass without the rows that declare a POTW and hold code 4941, in the
    same order: the revision only adds rows, and only such rows. *)
Theorem first_list_is_second_without_potw_dw (all_biosolids out : DataFrame) :
  Original.biosolids_to_remove all_biosolids = Ok out ->
  out = filter (fun x => negb (potw_with_dw (snd x)))
               (Revised.biosolids_to_remove all_biosolids)
  /\ incl out (Revised.biosolids_to_remove all_biosolids)
  /\ forall x, In x (Revised.biosolids_to_remove all_biosolids) ->
               ~ In x out -> potw_with_dw (snd x) = true.
Proof.
  intros H.
  pose proof (first_list_filter all_biosolids out H) as E.
  split; [exact E|]. split.
  - intros x Hx. rewrite E in Hx. apply filter_In in Hx. tauto.
  - intros x Hx Hnot.
    destruct (potw_with_dw (snd x)) eqn:Hp; [reflexivity|].
    exfalso. apply Hnot. rewrite E. apply filter_In. now rewrite Hp.
Qed.

Lemma first_list_is_second_without_potw_dw_witness :
  Original.biosolids_to_remove Examples.roster
  = Ok [ (14, Examples.austin_county); (554, Examples.live_oak) ]%Z
  /\ [ (14, Examples.austin_county); (554, Examples.live_oak) ]%Z
     = filter (fun x => negb (potw_with_dw (snd x)))
              (Revised.biosolids_to_remove Examples.roster).
Proof.
  assert (H : Original.biosolids_to_remove Examples.roster
              = Ok [ (14, Examples.austin_county); (554, Examples.live_oak) ]%Z)
    by reflexivity.
  split; [exact H|].
  exact (proj1 (first_list_is_second_without_potw_dw Examples.roster _ H)).
Defined.

Lemma to_remove_frame_of_not_potw (c : config) (all_biosolids : DataFrame) :
  to_remove_frame c all_biosolids
  = (df <- not_potw c all_biosolids ;; select_by_apply has_match (Columns df)).
Proof. destruct c; reflexivity. Qed.

Lemma to_remove_of_not_potw (c : config) (all_biosolids : DataFrame) :
  biosolids_to_remove c all_biosolids
  = (df <- not_potw c all_biosolids ;; Ok (keep_has_match df)).
Proof. destruct c; reflexivity. Qed.

(** A returned frame of a pass has the list of the pass as its rows. *)
Lemma to_remove_frame_Ok (c : config) (all_biosolids : DataFrame) (f : frame) :
  to_remove_frame c all_biosolids = Ok f ->
  biosolids_to_remove c all_biosolids = Ok (rows f).
Proof.
  rewrite to_remove_frame_of_not_potw, to_remove_of_not_potw.
  destruct (not_potw c all_biosolids) as [df|e]; simpl; [|discriminate].
  destruct (select_by_apply_columns has_match df) as (g & Hg & Hrows & _).
  cbn [getitem bind] in Hg. rewrite Hg. intros [= <-].
  now rewrite Hrows, keep_has_match_filter.
Qed.

(** A displayed bucket is returned only when rule 2 has left a row. *)
Lemma check_bucket_Ok (c : config) (all_biosolids chk : DataFrame) :
  sic_check_bucket c all_biosolids = Ok chk ->
  exists out x,
    biosolids_to_remove c all_biosolids = Ok out
    /\ In x (biosolids_not_sewer all_biosolids)
    /\ retained_by_potw_rule c (snd x) = false.
Proof.
  rewrite sic_check_bucket_frame.
  destruct (to_remove_frame c all_biosolids) as [f|e] eqn:Hf; simpl;
    [|discriminate].
  pose proof (to_remove_frame_Ok c all_biosolids f Hf) as Hout.
  destruct (to_remove_frame_rows c all_biosolids _ Hout)
    as (f' & Hf' & _ & Hcols).
  rewrite Hf in Hf'. injection Hf' as <-.
  destruct f as [out|]; [|discriminate].
  intros _. simpl in Hout.
  destruct (to_remove_not_potw _ _ _ Hout) as (df & Hdf & _).
  pose proof (not_potw_spec c all_biosolids df Hdf) as Edf.
  destruct df as [|x df].
  - exfalso. symmetry in Edf.
    assert (Hall : forall x, In x (biosolids_not_sewer all_biosolids) ->
                             retained_by_potw_rule c (snd x) = true).
    { intros x Hx.
      pose proof (proj1 (filter_nil_iff _ _) Edf x Hx) as Hret.
      now apply negb_false_iff in Hret. }
    apply Hcols in Hall. discriminate.
  - assert (Hx : In x (filter (fun y => negb (retained_by_potw_rule c (snd y)))
                              (biosolids_not_sewer all_biosolids)))
      by (rewrite <- Edf; now left).
    apply filter_In in Hx. destruct Hx as [Hx Hret].
    apply negb_true_iff in Hret. eauto.
Qed.

(** X3. The revision does not touch the bucket kept for manual checking:
    every row it adds holds code 4941, which is in [sic_remove]. *)
Theorem check_bucket_unchanged (all_biosolids chk : DataFrame) :
  sic_check_bucket original all_biosolids = Ok chk ->
  sic_check_bucket revised all_biosolids = Ok chk.
Proof.
  intros H.
  destruct (check_bucket_Ok original all_biosolids chk H)
    as (out & x & Hout & Hx & Hret).
  destruct (buckets_of_to_remove original all_biosolids out x Hout Hx Hret)
    as [_ Hchk].
  rewrite Hchk in H. injection H as <-.
  assert (Hret' : retained_by_potw_rule revised (snd x) = false).
  { simpl in Hret |- *. unfold Revised.potw_check. now rewrite Hret. }
  destruct (buckets_of_to_remove revised all_biosolids _ x eq_refl Hx Hret')
    as [_ Hchk'].
  rewrite Hchk'. f_equal.
  simpl in Hout. rewrite (first_list_filter all_biosolids out Hout).
  rewrite filter_twice.
  apply filter_ext. intros y. unfold potw_with_dw, none_in_sic_remove.
  destruct (Revised.dw_sic_check (snd y)) eqn:Hdw.
  - rewrite (dw_code_in_sic_remove _ Hdw). simpl. now rewrite andb_false_r.
  - now rewrite andb_false_r.
Qed.

Lemma check_bucket_unchanged_witness :
  sic_check_bucket original Examples.roster = Ok [ (554%Z, Examples.live_oak) ]
  /\ sic_check_bucket revised Examples.roster = Ok [ (554%Z, Examples.live_oak) ].
Proof.
  assert (H : sic_check_bucket original Examples.roster
              = Ok [ (554%Z, Examples.live_oak) ])
    by reflexivity.
  split; [exact H|].
  exact (check_bucket_unchanged Examples.roster _ H).
Defined.

(** ** The comparison of the two passes *)

(** The frame of a pass has its columns as soon as rule 2 has left a row. *)
Lemma to_remove_frame_columns (c : config) (all_biosolids out : DataFrame)
  (x : Z * facility) :
  biosolids_to_remove c all_biosolids = Ok out ->
  In x (biosolids_not_sewer all_biosolids) ->
  retained_by_potw_rule c (snd x) = false ->
  to_remove_frame c all_biosolids = Ok (Columns out).
Proof.
  intros Hout Hx Hret.
  destruct (to_remove_frame_rows c all_biosolids out Hout)
    as (f & Hf & Hrows & Hcols).
  destruct f as [df|].
  - simpl in Hrows. now subst df.
  - exfalso. pose proof (proj1 Hcols eq_refl x Hx). congruence.
Qed.

Lemma to_remove_frame_no_columns (c : config) (all_biosolids out : DataFrame) :
  biosolids_to_remove c all_biosolids = Ok out ->
  (forall x, In x (biosolids_not_sewer all_biosolids) ->
             retained_by_potw_rule c (snd x) = true) ->
  to_remove_frame c all_biosolids = Ok NoColumns.
Proof.
  intros Hout Hall.
  destruct (to_remove_frame_rows c all_biosolids out Hout)
    as (f & Hf & _ & Hcols).
  apply Hcols in Hall. now subst f.
Qed.

(** X4. Run on the frames of the two passes, the final comparison reports
    exactly the rows of the second list that declare a POTW and hold code
    4941, in list order, provided the first pass returns, its rule 2 leaves
    at least one row, and the second list has no repeated key tuple and no
    repeated index label. *)
Theorem compare_passes_reports_potw_dw (all_biosolids : DataFrame) :
  Forall (fun x => Reporting_Obligations (snd x) <> None)
         (biosolids_not_sewer all_biosolids) ->
  (exists x, In x (biosolids_not_sewer all_biosolids)
             /\ retained_by_potw_rule original (snd x) = false) ->
  NoDup (map (fun x => Reconcile.common_columns (snd x))
             (Revised.biosolids_to_remove all_biosolids)) ->
  NoDup (map fst (Revised.biosolids_to_remove all_biosolids)) ->
  compare_passes all_biosolids
  = Ok (map Reconcile.compared
            (filter (fun x => potw_with_dw (snd x))
                    (Revised.biosolids_to_remove all_biosolids))).
Proof.
  intros Htext (x & Hx & Hret) Hkeys Hlabels.
  destruct (to_remove_total original all_biosolids (fun _ => Htext))
    as [out Hout].
  assert (Hret' : retained_by_potw_rule revised (snd x) = false).
  { simpl in Hret |- *. unfold Revised.potw_check. now rewrite Hret. }
  unfold compare_passes.
  rewrite (to_remove_frame_columns original all_biosolids out x Hout Hx Hret).
  rewrite (to_remove_frame_columns revised all_biosolids _ x eq_refl Hx Hret').
  cbn [bind]. simpl in Hout.
  pose proof (first_list_filter all_biosolids out Hout) as E.
  set (upd := Revised.biosolids_to_remove all_biosolids) in *.
  assert (Hincl : incl out upd).
  { intros y Hy. rewrite E in Hy. apply filter_In in Hy. tauto. }
  rewrite (compare_removal_list_subset out upd Hkeys Hlabels).
  - f_equal. f_equal. apply filter_ext_in. intros y Hy.
    destruct (potw_with_dw (snd y)) eqn:Hp.
    + apply absent_from_spec. intros Hin.
      apply in_map_iff in Hin. destruct Hin as (z & Ez & Hz).
      assert (z = y).
      { apply (NoDup_map_injective _ upd z y Hkeys); auto. }
      subst z. rewrite E in Hz. apply filter_In in Hz.
      destruct Hz as [_ Hz]. rewrite Hp in Hz. discriminate.
    + destruct (absent_from out y) eqn:Ha; [|reflexivity].
      apply absent_from_spec in Ha. exfalso. apply Ha.
      apply in_map with (f := fun z => Reconcile.common_columns (snd z)).
      rewrite E. apply filter_In. now rewrite Hp.
  - intros k Hk. apply in_map_iff in Hk. destruct Hk as (y & <- & Hy).
    apply in_map with (f := fun z => Reconcile.common_columns (snd z)).
    now apply Hincl.
Qed.

Lemma compare_passes_reports_potw_dw_witness :
  Forall (fun x => Reporting_Obligations (snd x) <> None)
         (biosolids_not_sewer Examples.roster)
  /\ (exists x, In x (biosolids_not_sewer Examples.roster)
                /\ retained_by_potw_rule original (snd x) = false)
  /\ compare_passes Examples.roster
     = Ok (map Reconcile.compared
               (filter (fun x => potw_with_dw (snd x))
                       (Revised.biosolids_to_remove Examples.roster)))
  /\ map Reconcile.compared
         (filter (fun x => potw_with_dw (snd x))
                 (Revised.biosolids_to_remove Examples.roster))
     = [ Reconcile.compared (4171%Z, Examples.noonday) ].
Proof.
  assert (H1 : Forall (fun x => Reporting_Obligations (snd x) <> None)
                      (biosolids_not_sewer Examples.roster))
    by (repeat constructor; discriminate).
  assert (H1' : exists x, In x (biosolids_not_sewer Examples.roster)
                          /\ retained_by_potw_rule original (snd x) = false).
  { exists (554%Z, Examples.live_oak). split; [simpl; tauto | reflexivity]. }
  assert (H2 : NoDup (map (fun x => Reconcile.common_columns (snd x))
                          (Revised.biosolids_to_remove Examples.roster)))
    by distinct_entries.
  assert (H3 : NoDup (map fst (Revised.biosolids_to_remove Examples.roster)))
    by distinct_entries.
  split; [exact H1|]. split; [exact H1'|].
  split; [|reflexivity].
  exact (compare_passes_reports_potw_dw Examples.roster H1 H1' H2 H3).
Defined.

(** X20. When rule 2 of the first pass leaves no row, the first pass saves
    a frame without columns and the final comparison raises KeyError,
    whatever the second pass has found. *)
Theorem compare_passes_first_list_without_columns (all_biosolids : DataFrame) :
  Forall (fun x => Reporting_Obligations (snd x) <> None)
         (biosolids_not_sewer all_biosolids) ->
  (forall x, In x (biosolids_not_sewer all_biosolids) ->
             retained_by_potw_rule original (snd x) = true) ->
  to_remove_frame original all_biosolids = Ok NoColumns
  /\ compare_passes all_biosolids = Raise KeyError.
Proof.
  intros Htext Hall.
  destruct (to_remove_total original all_biosolids (fun _ => Htext))
    as [out Hout].
  pose proof (to_remove_frame_no_columns original all_biosolids out Hout Hall)
    as Hf.
  split; [exact Hf|].
  unfold compare_passes. rewrite Hf. cbn [bind].
  destruct (to_remove_frame_rows revised all_biosolids _ eq_refl)
    as (f & -> & _). reflexivity.
Qed.

Lemma compare_passes_first_list_without_columns_witness :
  Forall (fun x => Reporting_Obligations (snd x) <> None)
         (biosolids_not_sewer [ (4171%Z, Examples.noonday) ])
  /\ Revised.biosolids_to_remove [ (4171%Z, Examples.noonday) ]
     = [ (4171%Z, Examples.noonday) ]
  /\ compare_passes [ (4171%Z, Examples.noonday) ] = Raise KeyError.
Proof.
  assert (H1 : Forall (fun x => Reporting_Obligations (snd x) <> None)
                      (biosolids_not_sewer [ (4171%Z, Examples.noonday) ]))
    by (repeat constructor; discriminate).
  assert (H2 : forall x, In x (biosolids_not_sewer [ (4171%Z, Examples.noonday) ]) ->
                         retained_by_potw_rule original (snd x) = true).
  { intros x [<-|[]]. reflexivity. }
  split; [exact H1|]. split; [reflexivity|].
  exact (proj2 (compare_passes_first_list_without_columns _ H1 H2)).
Defined.

(** ** Running a pass again *)

Lemma filter_idempotent {A : Type} (f : A -> bool) (l : list A) :
  filter f (filter f l) = filter f l.
Proof.
  rewrite filter_twice. apply filter_ext. intros x. now destruct (f x).
Qed.

Lemma pass_on_own_rows (c : config) (all_biosolids out : DataFrame) :
  biosolids_to_remove c all_biosolids = Ok out ->
  biosolids_to_remove c out = Ok out.
Proof.
  intros H.
  assert (Hex : exists out', biosolids_to_remove c out = Ok out').
  { apply to_remove_total. intros ->.
    pose proof (original_ok_texts all_biosolids out H) as Htext.
    apply Forall_forall. intros x Hx.
    rewrite Forall_forall in Htext. apply Htext.
    rewrite biosolids_not_sewer_filter in Hx |- *.
    apply filter_In in Hx. destruct Hx as [Hx Hv].
    apply filter_In. split; [|exact Hv].
    rewrite (to_remove_filter original all_biosolids out H) in Hx.
    apply filter_In in Hx. tauto. }
  destruct Hex as [out' Hout']. rewrite Hout'. f_equal.
  rewrite (to_remove_filter c out out' Hout').
  rewrite (to_remove_filter c all_biosolids out H).
  apply filter_idempotent.
Qed.

(** X5. A pass run on the frame it saved returns that frame when the frame
    holds at least one row: the first pass does not raise on it, and
    nothing more is taken off.  On a saved frame without columns the pass
    raises KeyError at its first cell. *)
Theorem pass_on_own_frame (c : config) (all_biosolids : DataFrame) (f : frame) :
  to_remove_frame c all_biosolids = Ok f ->
  (rows f <> [] -> run_pass c f = Ok f)
  /\ (f = NoColumns -> run_pass c f = Raise KeyError).
Proof.
  intros Hf. split; [|now intros ->].
  intros Hrows. destruct f as [out|]; [|now elim Hrows].
  simpl in Hrows. unfold run_pass. cbn [getitem bind].
  pose proof (to_remove_frame_Ok c all_biosolids _ Hf) as Hout. simpl in Hout.
  pose proof (pass_on_own_rows c all_biosolids out Hout) as Hagain.
  destruct (to_remove_frame_rows c out out Hagain) as (g & Hg & Hgrows & _).
  rewrite Hg. f_equal. destruct g as [df|]; simpl in Hgrows; congruence.
Qed.

Lemma pass_on_own_frame_witness :
  to_remove_frame original Examples.roster
  = Ok (Columns [ (14, Examples.austin_county); (554, Examples.live_oak) ]%Z)
  /\ run_pass original
       (Columns [ (14, Examples.austin_county); (554, Examples.live_oak) ]%Z)
     = Ok (Columns [ (14, Examples.austin_county); (554, Examples.live_oak) ]%Z).
Proof.
  assert (H : to_remove_frame original Examples.roster
              = Ok (Columns [ (14, Examples.austin_county);
                              (554, Examples.live_oak) ]%Z))
    by reflexivity.
  split; [exact H|].
  apply (proj1 (pass_on_own_frame original Examples.roster _ H)).
  discriminate.
Defined.

(** X6. A pass keeps the rows of the roster as they are, in roster order:
    its list is one filter of the roster, so index labels that are unique
    in the roster are unique on the list, and the list is no longer than
    the roster. *)
Theorem pass_keeps_rows_and_labels (c : config) (all_biosolids out : DataFrame) :
  biosolids_to_remove c all_biosolids = Ok out ->
  out = filter (fails_rules c) all_biosolids
  /\ (NoDup (map fst all_biosolids) -> NoDup (map fst out))
  /\ List.length out <= List.length all_biosolids.
Proof.
  intros H. pose proof (to_remove_filter c all_biosolids out H) as E.
  split; [exact E|]. split.
  - intros Hnd. rewrite E. now apply distinct_after_selection.
  - rewrite E. apply filter_length_le.
Qed.

Lemma pass_keeps_rows_and_labels_witness :
  biosolids_to_remove revised Examples.roster
  = Ok [ (14, Examples.austin_county); (554, Examples.live_oak);
         (4171, Examples.noonday) ]%Z
  /\ [ (14, Examples.austin_county); (554, Examples.live_oak);
       (4171, Examples.noonday) ]%Z
     = filter (fails_rules revised) Examples.roster.
Proof.
  assert (H : biosolids_to_remove revised Examples.roster
              = Ok [ (14, Examples.austin_county); (554, Examples.live_oak);
                     (4171, Examples.noonday) ]%Z)
    by reflexivity.
  split; [exact H|].
  exact (proj1 (pass_keeps_rows_and_labels revised Examples.roster _ H)).
Defined.

(** ** The cells beside the passes *)

(** X7. The has-match and no-match lists of the first pass split the list
    left by rule 2: together they hold its rows once each, and the two
    printed lengths add up to its length. *)
Theorem has_match_no_match_split (all_biosolids df : DataFrame) :
  Original.biosolids_not_sewer_not_potw all_biosolids = Ok df ->
  exists hm nm,
    Original.biosolids_not_sewer_not_potw_has_match all_biosolids = Ok hm
    /\ biosolids_not_sewer_not_potw_no_match all_biosolids = Ok nm
    /\ Permutation (hm ++ nm) df
    /\ List.length hm + List.length nm = List.length df
    /\ forall x, ~ (In x hm /\ In x nm).
Proof.
  intros H.
  unfold Original.biosolids_not_sewer_not_potw_has_match,
    biosolids_not_sewer_not_potw_no_match.
  rewrite H. simpl.
  exists (keep_has_match df),
         (mask_rows df (map (fun x => no_match (sic_permit (snd x))) df)).
  split; [reflexivity|]. split; [reflexivity|].
  rewrite keep_has_match_filter, mask_rows_map.
  assert (E : filter (fun x => no_match (sic_permit (snd x))) df
              = filter (fun x => negb (has_match (sic_permit (snd x)))) df).
  { apply filter_ext. intros x. unfold has_match, no_match.
    now rewrite negb_involutive. }
  rewrite E. split; [apply filter_split|]. split.
  - rewrite <- length_app. apply Permutation_length, filter_split.
  - intros x [H1 H2]. apply filter_In in H1. apply filter_In in H2.
    destruct H1 as [_ H1]. destruct H2 as [_ H2]. rewrite H1 in H2.
    discriminate.
Qed.

Lemma has_match_no_match_split_witness :
  Original.biosolids_not_sewer_not_potw Examples.roster
  = Ok [ (1, Examples.no_match_plant); (14, Examples.austin_county);
         (554, Examples.live_oak) ]%Z
  /\ exists hm nm,
       Original.biosolids_not_sewer_not_potw_has_match Examples.roster = Ok hm
       /\ biosolids_not_sewer_not_potw_no_match Examples.roster = Ok nm
       /\ List.length hm + List.length nm = 3.
Proof.
  assert (H : Original.biosolids_not_sewer_not_potw Examples.roster
              = Ok [ (1, Examples.no_match_plant); (14, Examples.austin_county);
                     (554, Examples.live_oak) ]%Z)
    by reflexivity.
  split; [exact H|].
  destruct (has_match_no_match_split Examples.roster _ H)
    as (hm & nm & H1 & H2 & _ & H3 & _).
  exists hm, nm. repeat split; assumption.
Defined.

Lemma mask_rows_na_Ok {A : Type} (g : A -> option bool) (df p : list A) :
  mask_rows_na df (map g df) = Ok p ->
  p = filter (fun x => eq_1 (g x)) df /\ Forall (fun x => g x <> None) df.
Proof.
  unfold mask_rows_na.
  destruct (mapM _ (map g df)) as [m|e] eqn:E; simpl; [|discriminate].
  intros [= <-]. apply mapM_Ok_inv in E.
  assert (H : m = map (fun x => eq_1 (g x)) df /\ Forall (fun x => g x <> None) df).
  { revert m E. induction df as [|x df IH]; simpl; intros m E.
    - inversion E. split; [reflexivity | constructor].
    - inversion E as [|? b ? m' Hb Hrest]; subst.
      destruct (IH _ Hrest) as [-> Hall].
      destruct (g x) as [b'|] eqn:Hg; [|discriminate].
      injection Hb as <-. split; [reflexivity|].
      constructor; [simpl; congruence | exact Hall]. }
  destruct H as [-> Hall]. split; [apply mask_rows_map | exact Hall].
Qed.

Lemma mask_rows_na_Raise {A : Type} (g : A -> option bool) (df : list A)
  (e : pyerror) :
  mask_rows_na df (map g df) = Raise e <->
  e = ValueError /\ exists x, In x df /\ g x = None.
Proof.
  unfold mask_rows_na. split.
  - destruct (mapM _ (map g df)) as [m|e'] eqn:E; simpl; [discriminate|].
    intros [= ->]. apply mapM_Raise_inv in E.
    destruct E as ([b|] & Hin & Hb); [discriminate|].
    injection Hb as <-. split; [reflexivity|].
    apply in_map_iff in Hin. destruct Hin as (x & Hx & Hin). eauto.
  - intros [-> (x & Hin & Hx)].
    destruct (mapM_Raise
                (fun o : option bool => match o with
                                        | Some b => Ok b
                                        | None => Raise ValueError
                                        end)
                (map g df) None ValueError) as [e' He'].
    + apply in_map_iff. eauto.
    + reflexivity.
    + rewrite He'. simpl. f_equal.
      apply mapM_Raise_inv in He'. destruct He' as ([b|] & _ & Hb);
        simpl in Hb; [discriminate Hb | now injection Hb].
Qed.

(** X8. When the first pass gets through rule 2, the exploration cell
    returns the complement: the rows with "POTW" in their text, which
    together with the rows left by rule 2 make up the rows of verdict
    other_system, each once. *)
Theorem is_potw_complements_rule_2 (all_biosolids df : DataFrame) :
  Original.biosolids_not_sewer_not_potw all_biosolids = Ok df ->
  exists p,
    biosolids_not_sewer_is_potw all_biosolids = Ok p
    /\ Permutation (p ++ df) (biosolids_not_sewer all_biosolids)
    /\ forall x, In x p ->
                 exists pre post,
                   Reporting_Obligations (snd x)
                   = Some (pre ++ "POTW" ++ post)%string.
Proof.
  intros H.
  pose proof (original_not_potw_inv all_biosolids df H) as E.
  assert (Htext : Forall (fun x => str_contains_POTW (Reporting_Obligations (snd x)) <> None)
                         (biosolids_not_sewer all_biosolids)).
  { unfold Original.biosolids_not_sewer_not_potw, Original.potw_mask in H.
    destruct (invert _) as [m|e] eqn:Ei; simpl in H; [|discriminate].
    apply invert_inv in Ei. destruct Ei as [Ei _].
    now rewrite Forall_map in Ei. }
  unfold biosolids_not_sewer_is_potw.
  set (ns := biosolids_not_sewer all_biosolids) in *.
  destruct (mask_rows_na ns (map (fun x => str_contains_POTW (Reporting_Obligations (snd x))) ns))
    as [p|e] eqn:Ep.
  - exists p. split; [reflexivity|].
    apply mask_rows_na_Ok in Ep. destruct Ep as [-> _].
    split.
    + rewrite E. simpl. apply filter_split.
    + intros x Hx. apply filter_In in Hx. destruct Hx as [_ Hx].
      unfold str_contains_POTW in Hx.
      destruct (Reporting_Obligations (snd x)) as [s|]; [|discriminate].
      simpl in Hx. apply find_substring_inv in Hx.
      destruct Hx as (pre & post & ->). eauto.
  - exfalso. apply mask_rows_na_Raise in Ep.
    destruct Ep as [_ (x & Hin & Hx)].
    rewrite Forall_forall in Htext. exact (Htext x Hin Hx).
Qed.

Lemma is_potw_complements_rule_2_witness :
  Original.biosolids_not_sewer_not_potw Examples.roster
  = Ok [ (1, Examples.no_match_plant); (14, Examples.austin_county);
         (554, Examples.live_oak) ]%Z
  /\ exists p,
       biosolids_not_sewer_is_potw Examples.roster = Ok p
       /\ Permutation
            (p ++ [ (1, Examples.no_match_plant); (14, Examples.austin_county);
                    (554, Examples.live_oak) ]%Z)
            (biosolids_not_sewer Examples.roster).
Proof.
  assert (H : Original.biosolids_not_sewer_not_potw Examples.roster
              = Ok [ (1, Examples.no_match_plant); (14, Examples.austin_county);
                     (554, Examples.live_oak) ]%Z)
    by reflexivity.
  split; [exact H|].
  destruct (is_potw_complements_rule_2 Examples.roster _ H) as (p & H1 & H2 & _).
  exists p. split; assumption.
Defined.

(** X9. On a roster whose obligation column holds at least one text, the
    exploration cell raises exactly when some row of verdict other_system
    has no obligation text (the rosters on which the first pass raises);
    its error is the ValueError of the boolean mask. *)
Theorem is_potw_raises_iff (all_biosolids : DataFrame) (e : pyerror) :
  (exists x, In x all_biosolids /\ Reporting_Obligations (snd x) <> None) ->
  (biosolids_not_sewer_is_potw all_biosolids = Raise e <->
   e = ValueError
   /\ exists x, In x all_biosolids
                /\ check_sewer_permits (snd x) = other_system
                /\ Reporting_Obligations (snd x) = None).
Proof.
  intros _.
  unfold biosolids_not_sewer_is_potw. cbv zeta.
  rewrite (mask_rows_na_Raise
             (fun x : Z * facility =>
                str_contains_POTW (Reporting_Obligations (snd x)))).
  split.
  - intros [-> (x & Hin & Hx)]. split; [reflexivity|].
    rewrite biosolids_not_sewer_filter in Hin. apply filter_In in Hin.
    destruct Hin as [Hin Hv]. apply verdict_eqb_other in Hv.
    exists x. repeat split; try assumption.
    unfold str_contains_POTW in Hx.
    destruct (Reporting_Obligations (snd x)); [discriminate | reflexivity].
  - intros [-> (x & Hin & Hv & Hnone)]. split; [reflexivity|].
    exists x. split.
    + rewrite biosolids_not_sewer_filter. apply filter_In.
      split; [exact Hin | now apply verdict_eqb_other].
    + now rewrite Hnone.
Qed.

Lemma is_potw_raises_iff_witness :
  (exists x, In x Examples.roster_nan /\ Reporting_Obligations (snd x) <> None)
  /\ biosolids_not_sewer_is_potw Examples.roster_nan = Raise ValueError.
Proof.
  assert (H : exists x, In x Examples.roster_nan
                        /\ Reporting_Obligations (snd x) <> None).
  { exists (14%Z, Examples.austin_county). split; [simpl; tauto | discriminate]. }
  split; [exact H|].
  apply (is_potw_raises_iff Examples.roster_nan ValueError H).
  split; [reflexivity|].
  exists (9%Z, Examples.no_text). repeat split. simpl. tauto.
Defined.

(** ** More on the comparison *)

Lemma filter_all {A : Type} (f : A -> bool) (l : list A) :
  (forall x, In x l -> f x = true) -> filter f l = l.
Proof.
  induction l as [|y l IH]; simpl; intros H; [reflexivity|].
  rewrite (H y) by now left. f_equal. apply IH. intros x Hx. apply H. now right.
Qed.

Lemma count_key_keep_false (k : key) (rows : list (Z * key)) :
  count_key k (drop_duplicates_keep_false rows)
  = if Nat.eqb (count_key k rows) 1 then 1 else 0.
Proof.
  unfold drop_duplicates_keep_false.
  assert (E : count_key k (filter (fun x => Nat.eqb (count_key (snd x) rows) 1) rows)
              = if Nat.eqb (count_key k rows) 1 then count_key k rows else 0).
  { unfold count_key at 1. rewrite filter_twice.
    destruct (Nat.eqb (count_key k rows) 1) eqn:Hc.
    - unfold count_key at 2. f_equal. apply filter_ext_in. intros y _.
      destruct (key_eqb k (snd y)) eqn:Hk; [|now rewrite andb_false_r].
      apply key_eqb_eq in Hk. subst k. now rewrite Hc.
    - rewrite filter_none; [reflexivity|]. intros y _.
      destruct (key_eqb k (snd y)) eqn:Hk; [|now rewrite andb_false_r].
      apply key_eqb_eq in Hk. subst k. now rewrite Hc. }
  rewrite E. destruct (Nat.eqb_spec (count_key k rows) 1) as [->|]; reflexivity.
Qed.

Lemma NoDup_keys_of_counts (rows : list (Z * key)) :
  (forall k, count_key k rows <= 1) -> NoDup (map snd rows).
Proof.
  induction rows as [|y rows IH]; simpl; intros H; [constructor|].
  constructor.
  - apply count_key_zero. specialize (H (snd y)).
    unfold count_key in H |- *. simpl in H. rewrite key_eqb_refl in H.
    simpl in H. lia.
  - apply IH. intros k. specialize (H k).
    unfold count_key in H |- *. simpl in H.
    destruct (key_eqb k (snd y)); simpl in H; lia.
Qed.

(** X10. [drop_duplicates(keep=False)] leaves no two rows with the same
    key tuple, and applying it again changes nothing. *)
Theorem drop_duplicates_keep_false_distinct (rows : list (Z * key)) :
  NoDup (map snd (drop_duplicates_keep_false rows))
  /\ drop_duplicates_keep_false (drop_duplicates_keep_false rows)
     = drop_duplicates_keep_false rows.
Proof.
  split.
  - apply NoDup_keys_of_counts. intros k. rewrite count_key_keep_false.
    destruct (Nat.eqb (count_key k rows) 1); lia.
  - unfold drop_duplicates_keep_false at 1. apply filter_all.
    intros x Hx. rewrite count_key_keep_false.
    unfold drop_duplicates_keep_false in Hx. apply filter_In in Hx.
    destruct Hx as [_ Hx]. now rewrite Hx.
Qed.

(** X11. A removal list compared with itself selects no label and gives
    the empty frame, whatever rows it holds under its columns; the frame
    without columns compared with itself raises KeyError. *)
Theorem compare_removal_list_self (a : DataFrame) :
  compare_removal_list_indices a a = []
  /\ compare_removal_list (Columns a) (Columns a) = Ok []
  /\ compare_removal_list NoColumns NoColumns = Raise KeyError.
Proof.
  assert (E : compare_removal_list_indices a a = []).
  { unfold compare_removal_list_indices, drop_duplicates_keep_false.
    rewrite filter_none; [reflexivity|].
    intros [i k] Hx. simpl. rewrite count_key_app.
    assert (1 <= count_key k (project a)).
    { apply in_app_or in Hx. destruct Hx as [Hx|Hx];
        now apply count_key_In with (i := i). }
    apply Nat.eqb_neq. lia. }
  split; [exact E|]. split; [|reflexivity].
  unfold compare_removal_list. cbn [getitem bind]. now rewrite E.
Qed.

(** X12. The comparison raises nothing but KeyError, and raises it exactly
    when one of the two frames has lost its columns or one of the labels
    it selected is not an index label of [remove_update]. *)
Theorem compare_removal_list_raises_iff (fa fb : frame) (e : pyerror) :
  compare_removal_list fa fb = Raise e <->
  e = KeyError
  /\ (fa = NoColumns
      \/ fb = NoColumns
      \/ exists a b label,
           fa = Columns a /\ fb = Columns b
           /\ In label (compare_removal_list_indices a b)
           /\ ~ In label (map fst b)).
Proof.
  split.
  - destruct fa as [a|]; [|intros [= <-]; tauto].
    destruct fb as [b|]; [|intros [= <-]; tauto].
    unfold compare_removal_list, loc. cbn [getitem bind].
    destruct (mapM (loc_label b) (compare_removal_list_indices a b))
      as [found|e'] eqn:E; simpl; [discriminate|].
    intros [= ->]. apply mapM_Raise_inv in E.
    destruct E as (l & Hl & Hr). apply loc_label_Raise in Hr.
    destruct Hr as [-> Hnot]. split; [reflexivity|].
    right. right. exists a, b, l. auto.
  - intros [-> [->|[->|(a & b & l & -> & -> & Hl & Hnot)]]].
    + reflexivity.
    + now destruct fa.
    + exact (compare_missing_label a b l Hl Hnot).
Qed.

(** X13. Against an empty first list that has kept its columns the
    comparison returns the whole of the second list, when that list has
    no repeated key tuple and no repeated index label; against a first
    list without columns it raises KeyError. *)
Theorem compare_removal_list_empty_original (b : DataFrame) :
  NoDup (map (fun x => common_columns (snd x)) b) ->
  NoDup (map fst b) ->
  compare_removal_list (Columns []) (Columns b) = Ok (map compared b)
  /\ compare_removal_list NoColumns (Columns b) = Raise KeyError.
Proof.
  intros Hkeys Hlabels. split; [|reflexivity].
  rewrite (compare_removal_list_subset [] b Hkeys Hlabels).
  - f_equal. f_equal. apply filter_all. reflexivity.
  - intros k [].
Qed.

Lemma compare_removal_list_empty_original_witness :
  NoDup (map (fun x => common_columns (snd x)) Examples.remove_update)
  /\ NoDup (map fst Examples.remove_update)
  /\ compare_removal_list (Columns []) (Columns Examples.remove_update)
     = Ok (map compared Examples.remove_update).
Proof.
  assert (H1 : NoDup (map (fun x => common_columns (snd x)) Examples.remove_update))
    by distinct_entries.
  assert (H2 : NoDup (map fst Examples.remove_update))
    by distinct_entries.
  split; [exact H1|]. split; [exact H2|].
  exact (proj1 (compare_removal_list_empty_original _ H1 H2)).
Defined.

(** X14. Against an empty second list, with or without its columns, the
    comparison raises KeyError as soon as the first list holds a row, when
    no key tuple is repeated in it: there is no frame of removed rows. *)
Theorem compare_removal_list_empty_update (x : Z * facility) (a : DataFrame) :
  NoDup (map (fun y => common_columns (snd y)) (x :: a)) ->
  compare_removal_list (Columns (x :: a)) (Columns []) = Raise KeyError
  /\ compare_removal_list (Columns (x :: a)) NoColumns = Raise KeyError.
Proof.
  intros Hkeys. split; [|reflexivity].
  apply (compare_missing_label (x :: a) [] (fst x)); [|simpl; tauto].
  unfold compare_removal_list_indices, drop_duplicates_keep_false.
  rewrite app_nil_r. rewrite filter_all.
  - rewrite project_labels. now left.
  - intros [i k] Hin. apply Nat.eqb_eq.
    apply count_key_NoDup.
    + now rewrite project_keys.
    + now apply in_map with (f := snd) in Hin.
Qed.

Lemma compare_removal_list_empty_update_witness :
  NoDup (map (fun y => common_columns (snd y)) Examples.remove_original)
  /\ compare_removal_list (Columns Examples.remove_original) (Columns [])
     = Raise KeyError
  /\ compare_removal_list (Columns Examples.remove_original) NoColumns
     = Raise KeyError.
Proof.
  assert (H : NoDup (map (fun y => common_columns (snd y))
                         Examples.remove_original))
    by distinct_entries.
  split; [exact H|].
  exact (compare_removal_list_empty_update _ _ H).
Defined.

(** ** More on the registry lookup *)

Lemma string_app_assoc (a b c : string) :
  (a ++ (b ++ c))%string = ((a ++ b) ++ c)%string.
Proof.
  induction a as [|x a IH]; simpl; [reflexivity | now rewrite IH].
Qed.

(** A string that holds [long] holds every substring of [long]. *)
Lemma find_substring_trans (short long s pre post : string) :
  long = (pre ++ short ++ post)%string ->
  find_substring long s = true -> find_substring short s = true.
Proof.
  intros -> H. apply find_substring_inv in H. destruct H as (l & r & ->).
  apply find_substring_iff. exists (l ++ pre)%string, (post ++ r)%string.
  now rewrite <- !string_app_assoc.
Qed.

Lemma check_naics_ok (reg : list naics_row) (npdes_id : string) :
  re_literal npdes_id = true ->
  Forall (fun r => PGM_SYS_ID r <> None) reg ->
  check_naics_biosolid_codes reg npdes_id
  = Ok (map CODE_DESCRIPTION (filter (id_contains npdes_id) reg)).
Proof.
  intros Hlit Hids. unfold check_naics_biosolid_codes.
  rewrite (mapM_Ok_map _ (fun r => Some (id_contains npdes_id r))).
  - simpl. now rewrite mask_rows_na_total.
  - eapply Forall_impl; [|exact Hids].
    intros r Hr. simpl in Hr. unfold str_contains, re_search, id_contains.
    destruct (PGM_SYS_ID r) as [s|]; [|congruence].
    now rewrite Hlit.
Qed.

Lemma check_naics_literal_mask (reg : list naics_row) (npdes_id : string) :
  re_literal npdes_id = true ->
  check_naics_biosolid_codes reg npdes_id
  = (matched <- mask_rows_na reg
                  (map (fun r => option_map (find_substring npdes_id) (PGM_SYS_ID r))
                       reg) ;;
     Ok (map CODE_DESCRIPTION matched)).
Proof.
  intros Hlit. unfold check_naics_biosolid_codes.
  rewrite (mapM_Ok_map _ (fun r => option_map (find_substring npdes_id) (PGM_SYS_ID r))).
  - reflexivity.
  - apply Forall_forall. intros r _. unfold str_contains, re_search.
    destruct (PGM_SYS_ID r); now rewrite Hlit.
Qed.

Lemma check_naics_missing (reg : list naics_row) (npdes_id : string)
  (r : naics_row) :
  re_literal npdes_id = true ->
  In r reg -> PGM_SYS_ID r = None ->
  check_naics_biosolid_codes reg npdes_id = Raise ValueError.
Proof.
  intros Hlit Hin Hnone. rewrite check_naics_literal_mask by exact Hlit.
  assert (E : mask_rows_na reg
                (map (fun r => option_map (find_substring npdes_id) (PGM_SYS_ID r)) reg)
              = Raise ValueError).
  { apply (mask_rows_na_Raise
             (fun r => option_map (find_substring npdes_id) (PGM_SYS_ID r))).
    split; [reflexivity|]. exists r. split; [exact Hin | now rewrite Hnone]. }
  now rewrite E.
Qed.

Lemma ids_present_or_missing (reg : list naics_row) :
  Forall (fun r => PGM_SYS_ID r <> None) reg
  \/ exists r, In r reg /\ PGM_SYS_ID r = None.
Proof.
  induction reg as [|r reg [IH|(r' & Hin & Hr')]].
  - left. constructor.
  - destruct (PGM_SYS_ID r) as [s|] eqn:E.
    + left. constructor; [congruence | exact IH].
    + right. exists r. split; [now left | exact E].
  - right. exists r'. split; [now right | exact Hr'].
Qed.

(** X15. For an identifier without regex metacharacter, on a registry in
    which at least one row carries an identifier (an object column, on
    which [.str] applies), the lookup raises exactly when some registry
    row has no identifier, and then with the ValueError of the boolean
    mask, whether or not any row matches. *)
Theorem check_naics_biosolid_codes_raises_iff
  (naics_npdes_biosolids : list naics_row) (npdes_id : string) (e : pyerror) :
  re_literal npdes_id = true ->
  (exists r, In r naics_npdes_biosolids /\ PGM_SYS_ID r <> None) ->
  (check_naics_biosolid_codes naics_npdes_biosolids npdes_id = Raise e <->
   e = ValueError
   /\ exists r, In r naics_npdes_biosolids /\ PGM_SYS_ID r = None).
Proof.
  intros Hlit _. split.
  - intros H.
    destruct (ids_present_or_missing naics_npdes_biosolids)
      as [Hall|(r & Hin & Hr)].
    + rewrite (check_naics_ok _ _ Hlit Hall) in H. discriminate.
    + rewrite (check_naics_missing _ _ r Hlit Hin Hr) in H.
      injection H as <-. eauto.
  - intros [-> (r & Hin & Hr)]. exact (check_naics_missing _ _ r Hlit Hin Hr).
Qed.

Lemma check_naics_biosolid_codes_raises_iff_witness :
  re_literal "UTL025763" = true
  /\ (exists r,
        In r (Examples.naics_npdes_biosolids
              ++ [ mkNaics None (Some "SEWAGE TREATMENT FACILITIES.") ])
        /\ PGM_SYS_ID r <> None)
  /\ check_naics_biosolid_codes
       (Examples.naics_npdes_biosolids
        ++ [ mkNaics None (Some "SEWAGE TREATMENT FACILITIES.") ])
       "UTL025763" = Raise ValueError.
Proof.
  assert (H : re_literal "UTL025763" = true) by reflexivity.
  assert (H' : exists r,
             In r (Examples.naics_npdes_biosolids
                   ++ [ mkNaics None (Some "SEWAGE TREATMENT FACILITIES.") ])
             /\ PGM_SYS_ID r <> None).
  { exists (mkNaics (Some "AK0021474") (Some "SEWAGE TREATMENT FACILITIES.")).
    split; [simpl; tauto | discriminate]. }
  split; [exact H|]. split; [exact H'|].
  apply (check_naics_biosolid_codes_raises_iff _ _ ValueError H H').
  split; [reflexivity|].
  exists (mkNaics None (Some "SEWAGE TREATMENT FACILITIES.")).
  split; [|reflexivity]. apply in_or_app. right. now left.
Defined.

(** X16. A longer query never finds more: when the lookup returns for an
    identifier, it returns for every identifier that holds it, with the
    entries of the rows that match both, so with entries that the shorter
    query returned too, and no more of them. *)
Theorem check_naics_biosolid_codes_longer_query
  (naics_npdes_biosolids : list naics_row) (short long pre post : string)
  (found : list cell) :
  re_literal short = true ->
  re_literal long = true ->
  long = (pre ++ short ++ post)%string ->
  check_naics_biosolid_codes naics_npdes_biosolids short = Ok found ->
  exists found',
    check_naics_biosolid_codes naics_npdes_biosolids long = Ok found'
    /\ found' = map CODE_DESCRIPTION
                    (filter (id_contains long)
                            (filter (id_contains short) naics_npdes_biosolids))
    /\ incl found' found
    /\ List.length found' <= List.length found.
Proof.
  intros Hs Hl Elong Hfound.
  destruct (ids_present_or_missing naics_npdes_biosolids)
    as [Hall|(r & Hin & Hr)].
  2:{ rewrite (check_naics_missing _ _ r Hs Hin Hr) in Hfound. discriminate. }
  rewrite (check_naics_ok _ _ Hs Hall) in Hfound. injection Hfound as <-.
  rewrite (check_naics_ok _ _ Hl Hall).
  assert (E : filter (id_contains long) naics_npdes_biosolids
              = filter (id_contains long)
                       (filter (id_contains short) naics_npdes_biosolids)).
  { rewrite filter_twice. apply filter_ext. intros r.
    unfold id_contains. destruct (PGM_SYS_ID r) as [s|]; [|reflexivity].
    destruct (find_substring long s) eqn:Hlong; [|now rewrite andb_false_r].
    now rewrite (find_substring_trans short long s pre post Elong Hlong). }
  exists (map CODE_DESCRIPTION (filter (id_contains long) naics_npdes_biosolids)).
  split; [reflexivity|]. split; [now rewrite E at 1|]. split.
  - rewrite E. intros c Hc. apply in_map_iff in Hc.
    destruct Hc as (r & <- & Hr). apply filter_In in Hr.
    apply in_map. tauto.
  - rewrite E, !length_map. apply filter_length_le.
Qed.

Lemma check_naics_biosolid_codes_longer_query_witness :
  check_naics_biosolid_codes Examples.naics_npdes_biosolids "UTL025763"
  = Ok [ Some "ALL OTHER TRAVELER ACCOMMODATION.";
         Some "SEWAGE TREATMENT FACILITIES.";
         Some "ALL OTHER TRAVELER ACCOMMODATION." ]
  /\ exists found',
       check_naics_biosolid_codes Examples.naics_npdes_biosolids "UTL0257630"
       = Ok found'
       /\ List.length found' <= 3.
Proof.
  assert (H1 : re_literal "UTL025763" = true) by reflexivity.
  assert (H2 : re_literal "UTL0257630" = true) by reflexivity.
  assert (H3 : "UTL0257630" = ("" ++ "UTL025763" ++ "0")%string) by reflexivity.
  assert (H4 : check_naics_biosolid_codes Examples.naics_npdes_biosolids "UTL025763"
               = Ok [ Some "ALL OTHER TRAVELER ACCOMMODATION.";
                      Some "SEWAGE TREATMENT FACILITIES.";
                      Some "ALL OTHER TRAVELER ACCOMMODATION." ])
    by reflexivity.
  split; [exact H4|].
  destruct (check_naics_biosolid_codes_longer_query _ _ _ _ _ _ H1 H2 H3 H4)
    as (found' & Hf & _ & _ & Hlen).
  exists found'. split; [exact Hf | exact Hlen].
Defined.

(** X17. The lookup reads the registry row by row: on two registries put
    end to end it returns the entries found in the first followed by the
    entries found in the second, and it raises when either part does. *)
Theorem check_naics_biosolid_codes_app
  (reg1 reg2 : list naics_row) (npdes_id : string) :
  re_literal npdes_id = true ->
  check_naics_biosolid_codes (reg1 ++ reg2) npdes_id
  = (found1 <- check_naics_biosolid_codes reg1 npdes_id ;;
     found2 <- check_naics_biosolid_codes reg2 npdes_id ;;
     Ok (found1 ++ found2)).
Proof.
  intros Hlit.
  destruct (ids_present_or_missing reg1) as [H1|(r & Hin & Hr)].
  - destruct (ids_present_or_missing reg2) as [H2|(r & Hin & Hr)].
    + rewrite (check_naics_ok _ _ Hlit H1), (check_naics_ok _ _ Hlit H2).
      rewrite (check_naics_ok (reg1 ++ reg2) _ Hlit).
      * simpl. now rewrite filter_app, map_app.
      * apply Forall_app. now split.
    + rewrite (check_naics_ok _ _ Hlit H1).
      rewrite (check_naics_missing reg2 _ r Hlit Hin Hr).
      rewrite (check_naics_missing (reg1 ++ reg2) _ r Hlit); try assumption.
      * reflexivity.
      * apply in_or_app. now right.
  - rewrite (check_naics_missing reg1 _ r Hlit Hin Hr).
    rewrite (check_naics_missing (reg1 ++ reg2) _ r Hlit); try assumption.
    + reflexivity.
    + apply in_or_app. now left.
Qed.

Lemma check_naics_biosolid_codes_app_witness :
  re_literal "AK0021474" = true
  /\ check_naics_biosolid_codes
       (Examples.naics_npdes_biosolids ++ Examples.naics_npdes_biosolids)
       "AK0021474"
     = Ok [ Some "SEWAGE TREATMENT FACILITIES.";
            Some "SEWAGE TREATMENT FACILITIES." ].
Proof.
  assert (H : re_literal "AK0021474" = true) by reflexivity.
  split; [exact H|].
  exact (check_naics_biosolid_codes_app Examples.naics_npdes_biosolids
           Examples.naics_npdes_biosolids "AK0021474" H).
Defined.

(** X18. The empty identifier matches every row: on a registry whose rows
    all carry an identifier the lookup returns every entry. *)
Theorem check_naics_biosolid_codes_empty_id
  (naics_npdes_biosolids : list naics_row) :
  Forall (fun r => PGM_SYS_ID r <> None) naics_npdes_biosolids ->
  check_naics_biosolid_codes naics_npdes_biosolids ""
  = Ok (map CODE_DESCRIPTION naics_npdes_biosolids).
Proof.
  intros Hall. rewrite (check_naics_ok _ "" eq_refl Hall).
  f_equal. f_equal. apply filter_all. intros r Hr.
  rewrite Forall_forall in Hall. specialize (Hall r Hr).
  unfold id_contains. destruct (PGM_SYS_ID r) as [s|]; [|congruence].
  now destruct s.
Qed.

Lemma check_naics_biosolid_codes_empty_id_witness :
  Forall (fun r => PGM_SYS_ID r <> None) Examples.naics_npdes_biosolids
  /\ check_naics_biosolid_codes Examples.naics_npdes_biosolids ""
     = Ok (map CODE_DESCRIPTION Examples.naics_npdes_biosolids).
Proof.
  assert (H : Forall (fun r => PGM_SYS_ID r <> None)
                     Examples.naics_npdes_biosolids)
    by (repeat constructor; discriminate).
  split; [exact H|].
  exact (check_naics_biosolid_codes_empty_id _ H).
Defined.

(** ** The NAICS check *)

Import NaicsCheck.

Lemma with_naics_description_ok (reg : list naics_row) (df : DataFrame) :
  Forall (fun r => PGM_SYS_ID r <> None) reg ->
  Forall (fun x => exists s, NPDES_ID (snd x) = Some s /\ re_literal s = true) df ->
  with_naics_description reg df
  = Ok (map (fun x => (x, match NPDES_ID (snd x) with
                          | Some s => map CODE_DESCRIPTION
                                          (filter (id_contains s) reg)
                          | None => []
                          end)) df).
Proof.
  intros Hreg Hdf. unfold with_naics_description.
  apply mapM_Ok_map. eapply Forall_impl; [|exact Hdf].
  intros x (s & Hs & Hlit). simpl. rewrite Hs. simpl.
  now rewrite (check_naics_ok reg s Hlit Hreg).
Qed.

(** X19. The last cell keeps exactly the facilities for which the registry
    has a row whose identifier holds the facility's identifier, each with
    the entries of those rows, when every registry row carries an
    identifier and every facility identifier is free of regex
    metacharacters. *)
Theorem naics_not_empty_rows
  (naics_npdes_biosolids : list naics_row) (biosolids_sic_not_sewer : DataFrame) :
  Forall (fun r => PGM_SYS_ID r <> None) naics_npdes_biosolids ->
  Forall (fun x => exists s, NPDES_ID (snd x) = Some s /\ re_literal s = true)
         biosolids_sic_not_sewer ->
  exists out,
    biosolids_sic_not_sewer_naics_not_empty naics_npdes_biosolids
                                            biosolids_sic_not_sewer = Ok out
    /\ forall x d,
         In (x, d) out <->
         In x biosolids_sic_not_sewer
         /\ (exists s, NPDES_ID (snd x) = Some s
                       /\ d = map CODE_DESCRIPTION
                                  (filter (id_contains s) naics_npdes_biosolids))
         /\ (exists r s pre post,
               In r naics_npdes_biosolids
               /\ NPDES_ID (snd x) = Some s
               /\ PGM_SYS_ID r = Some (pre ++ s ++ post)%string).
Proof.
  intros Hreg Hdf.
  unfold biosolids_sic_not_sewer_naics_not_empty.
  rewrite (with_naics_description_ok _ _ Hreg Hdf). simpl.
  eexists. split; [reflexivity|].
  intros x d. rewrite mask_rows_map, filter_In, in_map_iff. simpl.
  rewrite Forall_forall in Hdf.
  split.
  - intros [(y & [= -> <-] & Hy) Hne].
    destruct (Hdf x Hy) as (s & Hs & _). rewrite Hs in Hne |- *.
    split; [exact Hy|]. split; [eauto|].
    destruct (filter (id_contains s) naics_npdes_biosolids) as [|r rs] eqn:E;
      [discriminate|].
    assert (Hr : In r (filter (id_contains s) naics_npdes_biosolids))
      by (rewrite E; now left).
    apply filter_In in Hr. destruct Hr as [Hr Hc].
    unfold id_contains in Hc. destruct (PGM_SYS_ID r) as [t|] eqn:Ht;
      [|discriminate].
    apply find_substring_inv in Hc. destruct Hc as (pre & post & ->).
    exists r, s, pre, post. auto.
  - intros (Hx & (s & Hs & ->) & (r & s' & pre & post & Hr & Hs' & Hid)).
    rewrite Hs in Hs'. injection Hs' as <-.
    split.
    + exists x. rewrite Hs. auto.
    + assert (Hin : In r (filter (id_contains s) naics_npdes_biosolids)).
      { apply filter_In. split; [exact Hr|]. unfold id_contains.
        rewrite Hid. apply find_substring_app. }
      destruct (filter (id_contains s) naics_npdes_biosolids); [destruct Hin|].
      reflexivity.
Qed.

Lemma naics_not_empty_rows_witness :
  Forall (fun r => PGM_SYS_ID r <> None) Examples.naics_npdes_biosolids
  /\ exists out,
       biosolids_sic_not_sewer_naics_not_empty
         Examples.naics_npdes_biosolids NaicsExamples.biosolids_sic_not_sewer
       = Ok out
       /\ (In ((4135%Z, NaicsExamples.lodge),
               [ Some "ALL OTHER TRAVELER ACCOMMODATION.";
                 Some "SEWAGE TREATMENT FACILITIES.";
                 Some "ALL OTHER TRAVELER ACCOMMODATION." ]) out).
Proof.
  assert (H1 : Forall (fun r => PGM_SYS_ID r <> None)
                      Examples.naics_npdes_biosolids)
    by (repeat constructor; discriminate).
  assert (H2 : Forall (fun x => exists s, NPDES_ID (snd x) = Some s
                                          /\ re_literal s = true)
                      NaicsExamples.biosolids_sic_not_sewer).
  { repeat constructor.
    - exists "TX0125709". split; reflexivity.
    - exists "UTL025763". split; reflexivity. }
  split; [exact H1|].
  destruct (naics_not_empty_rows _ _ H1 H2) as (out & Hout & Hspec).
  exists out. split; [exact Hout|].
  apply Hspec. split; [simpl; tauto|]. split.
  - exists "UTL025763". split; reflexivity.
  - exists (mkNaics (Some "UTL025763") (Some "ALL OTHER TRAVELER ACCOMMODATION.")),
           "UTL025763", "", "".
    split; [simpl; tauto|]. split; reflexivity.
Defined.
